(** * r3/logics.py: selection and sequencing of trial content

    A shallow embedding of [r3/logics.py] (the dispatcher [prep] /
    [get_content], the state logger [add_state] and the media, text and
    blank selectors) together with the properties of its specification.

    Python values are embedded as follows.
    - [str] is [string]; a character is a code point below 256.
    - [int] is [Z]; [len] results and list positions are [nat]; the
      sequence number [seq] is an integer, so that [int(seq)] is [seq].
    - a list is a [list]; [set(...)] is a [gset].
    - the tables behind [Logic.objects] and [Temp.objects] are [gmap]s,
      the media catalog behind [Media.objects] is a list in the scan
      order of the storage backend.
    - a function that reads or writes the database, the clock or the
      random generator is a computation in the monad [M], which threads
      the state and keeps it when an exception is raised. *)

From Stdlib Require Import ZArith Ascii String.
From Stdlib Require Import DecimalString DecimalPos DecimalZ.
From stdpp Require Import base option list sorting gmap strings.

Local Open Scope Z_scope.

(** ** Python strings *)

Module PyStr.

Definition code (c : ascii) : N := N_of_ascii c.

(** [c.isspace()] on the code points below 256: tab, line feed, vertical
    tab, form feed, carriage return, the four separators 0x1c-0x1f, space,
    NEL (0x85) and the no-break space (0xa0). *)
Definition isspace (c : ascii) : bool :=
  let n := code c in
  ((9 <=? n) && (n <=? 13) || (28 <=? n) && (n <=? 32)
   || (n =? 133) || (n =? 160))%N.

(** The line boundaries of [str.splitlines] below 256. *)
Definition islinebreak (c : ascii) : bool :=
  let n := code c in
  ((10 <=? n) && (n <=? 13) || (28 <=? n) && (n <=? 30) || (n =? 133))%N.

Fixpoint all_chars (p : ascii → bool) (s : string) : bool :=
  match s with
  | EmptyString => true
  | String c s' => p c && all_chars p s'
  end.

(** The token collected so far is emitted only when it is not empty. *)
Definition emit (cur : string) : list string :=
  match cur with
  | EmptyString => []
  | _ => [cur]
  end.

Fixpoint split_go (cur : string) (s : string) : list string :=
  match s with
  | EmptyString => emit cur
  | String c s' =>
      if isspace c then emit cur ++ split_go EmptyString s'
      else split_go (cur +:+ String c EmptyString) s'
  end.

(** [s.split()]: the maximal runs of non-whitespace characters. *)
Definition split (s : string) : list string := split_go EmptyString s.

(** [sep.join(l)]. *)
Fixpoint join (sep : string) (l : list string) : string :=
  match l with
  | [] => EmptyString
  | x :: rest =>
      match rest with
      | [] => x
      | _ :: _ => x +:+ sep +:+ join sep rest
      end
  end.

(** [s.splitlines()]: a carriage return followed by a line feed is one
    boundary, and no empty last line is produced after a final
    boundary. *)
Fixpoint splitlines_go (cur : string) (s : string) : list string :=
  match s with
  | EmptyString => emit cur
  | String c s' =>
      if islinebreak c then
        cur :: match s' with
               | String c' s'' =>
                   if (code c =? 13)%N && (code c' =? 10)%N
                   then splitlines_go EmptyString s''
                   else splitlines_go EmptyString s'
               | EmptyString => []
               end
      else splitlines_go (cur +:+ String c EmptyString) s'
  end.

Definition splitlines (s : string) : list string :=
  splitlines_go EmptyString s.

(** [str(n)] for an [int]: decimal digits, a leading minus sign for a
    negative number. *)
Definition str (n : Z) : string := NilZero.string_of_int (Z.to_int n).

(** [int(s)] for a string without surrounding whitespace: [None] stands
    for [ValueError]. *)
Definition int (s : string) : option Z :=
  Z.of_int <$> NilZero.int_of_string s.

(** A token is what [split] returns: not empty and free of whitespace. *)
Definition is_token (s : string) : bool :=
  match s with
  | EmptyString => false
  | _ => all_chars (λ c, negb (isspace c)) s
  end.

End PyStr.

(** ** Python lists *)

(** [l[i]]: a negative index counts from the end; [None] stands for
    [IndexError]. *)
Definition getitem {A} (l : list A) (i : Z) : option A :=
  let n := Z.of_nat (length l) in
  let j := if i <? 0 then i + n else i in
  if j <? 0 then None else l !! Z.to_nat j.

(** [set(s).isdisjoint(other)]. *)
Definition isdisjoint (s : gset string) (other : list string) : bool :=
  forallb (λ t, negb (bool_decide (t ∈ s))) other.

(** [x[i], x[j] = x[j], x[i]] *)
Definition swap {A} (x : list A) (i j : nat) : list A :=
  match x !! i, x !! j with
  | Some xi, Some xj => <[j:=xi]> (<[i:=xj]> x)
  | _, _ => x
  end.

(** The loop of [random.shuffle]: [for i in reversed(range(1, len(x)))]
    draws [j = randbelow(i + 1)] and swaps the items at [i] and [j].  The
    generator is a sequence [random] of raw draws read from position
    [pos] on. *)
Fixpoint shuffle_go {A} (random : nat → nat) (pos : nat) (i : nat)
    (x : list A) : list A :=
  match i with
  | O => x
  | S i' =>
      let j := (random pos mod (i + 1))%nat in
      shuffle_go random (S pos) i' (swap x i j)
  end.

Definition shuffle {A} (random : nat → nat) (pos : nat) (x : list A)
    : list A :=
  shuffle_go random pos (length x - 1)%nat x.

(** ** Exceptions and the monad of the module *)

Inductive exn : Type :=
  | Http404            (* django.http.Http404 *)
  | DoesNotExist       (* Model.DoesNotExist, raised by objects.get *)
  | IndexError
  | ValueError
  | ContentError.      (* a file that cannot be opened or decoded *)

Global Instance exn_eq_dec : EqDecision exn.
Proof. solve_decision. Defined.

Inductive result (A : Type) : Type :=
  | Return (a : A)
  | Raise (e : exn).
Global Arguments Return {A} a.
Global Arguments Raise {A} e.

(** A computation over a state [S]: the state reached is returned with the
    value, and also with the exception when one is raised. *)
Definition M (S A : Type) : Type := S → result A * S.

Global Instance M_ret {S} : MRet (M S) := λ A a s, (Return a, s).
Global Instance M_bind {S} : MBind (M S) := λ A B f m s,
  match m s with
  | (Return a, s') => f a s'
  | (Raise e, s') => (Raise e, s')
  end.

Definition raise {S A} (e : exn) : M S A := λ s, (Raise e, s).
Definition gets {S A} (f : S → A) : M S A := λ s, (Return (f s), s).
Definition modify {S} (f : S → S) : M S unit := λ s, (Return tt, f s).

(** [try: m  except e: handler] *)
Definition try_except {S A} (m : M S A) (e : exn) (handler : M S A)
    : M S A := λ s,
  match m s with
  | (Raise e', s') => if decide (e' = e) then handler s' else (Raise e', s')
  | r => r
  end.

(** A value that may be missing, raising [e] when it is. *)
Definition or_raise {S A} (o : option A) (e : exn) : M S A :=
  match o with
  | Some a => mret a
  | None => raise e
  end.

(** ** The data model *)

Module FieldFile.
Record t : Type := mk {
  url : string;
  (** the decoded text of the file, [None] when opening or decoding it
      raises *)
  text : option string }.
End FieldFile.

Module Media.
Record t : Type := mk {
  id : Z;
  ext : string;
  tag : string;
  content : FieldFile.t }.
End Media.

Module Logic.
Record t : Type := mk {
  pk : Z;
  implement : string;
  media_ext : string;
  media_tag : string;
  media_order : string;
  media_list : string;
  media_count : Z;
  state : string }.

Definition set_media_ext (v : string) (l : t) : t :=
  mk (pk l) (implement l) v (media_tag l) (media_order l)
     (media_list l) (media_count l) (state l).
Definition set_media_tag (v : string) (l : t) : t :=
  mk (pk l) (implement l) (media_ext l) v (media_order l)
     (media_list l) (media_count l) (state l).
Definition set_media_list (v : string) (l : t) : t :=
  mk (pk l) (implement l) (media_ext l) (media_tag l) (media_order l)
     v (media_count l) (state l).
Definition set_media_count (v : Z) (l : t) : t :=
  mk (pk l) (implement l) (media_ext l) (media_tag l) (media_order l)
     (media_list l) v (state l).
Definition set_state (v : string) (l : t) : t :=
  mk (pk l) (implement l) (media_ext l) (media_tag l) (media_order l)
     (media_list l) (media_count l) v.
End Logic.

Module Trial.
Record t : Type := mk { logic : Logic.t }.
End Trial.

Module Temp.
Record t : Type := mk { name : string; content : string }.
End Temp.

(** [json.dumps({"type": ..., "data": ...})]: the serialised object is
    kept as its two fields. *)
Record Payload : Type := json_dumps { type : string; data : string }.

(** Modelled from the spec: the table of the [Temp] model, whose class is
    declared in [models.py]; it is a side table keyed by name that holds
    one text payload per name. *)
Abbreviation TempTable := (gmap string string) (only parsing).

(** Everything outside the Python objects. *)
Record World : Type := mkWorld {
  Media_objects : list Media.t;
  Logic_objects : gmap Z Logic.t;
  Temp_objects : TempTable;
  (** [str(datetime.datetime.today())] at each successive reading *)
  today : nat → string;
  clock : nat;
  (** the raw draws of the random generator *)
  random : nat → nat;
  drawn : nat }.

(** A call of [prep] and of the functions under it works on one [Logic]
    instance, the argument [logic], which it mutates in place. *)
Record Frame : Type := mkFrame { self : Logic.t; db : World }.

Definition set_Logic_objects (v : gmap Z Logic.t) (w : World) : World :=
  mkWorld (Media_objects w) v (Temp_objects w) (today w) (clock w)
          (random w) (drawn w).
Definition set_Temp_objects (v : gmap string string) (w : World) : World :=
  mkWorld (Media_objects w) (Logic_objects w) v (today w) (clock w)
          (random w) (drawn w).
Definition set_clock (v : nat) (w : World) : World :=
  mkWorld (Media_objects w) (Logic_objects w) (Temp_objects w) (today w) v
          (random w) (drawn w).
Definition set_drawn (v : nat) (w : World) : World :=
  mkWorld (Media_objects w) (Logic_objects w) (Temp_objects w) (today w)
          (clock w) (random w) v.

(** Running a database operation from inside [prep]. *)
Definition on_db {A} (m : M World A) : M Frame A := λ fr,
  let (r, w) := m (db fr) in (r, mkFrame (self fr) w).

(** Reading an attribute of [logic] and assigning to one. *)
Definition attr {A} (f : Logic.t → A) : M Frame A := gets (λ fr, f (self fr)).
Definition assign (f : Logic.t → Logic.t) : M Frame unit :=
  modify (λ fr, mkFrame (f (self fr)) (db fr)).

(** ** The database, the clock and the random generator *)

Import PyStr.

Definition newline : string := String (ascii_of_nat 10) EmptyString.

(** [logic.save()] *)
Definition save : M Frame unit :=
  modify (λ fr,
    mkFrame (self fr)
      (set_Logic_objects (<[Logic.pk (self fr) := self fr]>
                            (Logic_objects (db fr))) (db fr))).

(** [str(datetime.datetime.today())] *)
Definition datetime_today : M World string := λ w,
  (Return (today w (clock w)), set_clock (S (clock w)) w).

(** [random.shuffle(x)], which draws [len(x) - 1] numbers. *)
Definition random_shuffle {A} (x : list A) : M World (list A) := λ w,
  (Return (shuffle (random w) (drawn w) x),
   set_drawn (drawn w + (length x - 1))%nat w).

(** [Media.objects.all()] *)
Definition Media_objects_all : M World (list Media.t) := gets Media_objects.

(** [.order_by("id")] *)
Definition id_le (a b : Media.t) : Prop := (Media.id a ≤ Media.id b)%Z.
Global Instance id_le_dec a b : Decision (id_le a b) :=
  decide (Media.id a ≤ Media.id b)%Z.

Definition order_by_id (l : list Media.t) : list Media.t :=
  merge_sort id_le l.

(** A model instance is true: [Media] defines neither [__bool__] nor
    [__len__]. *)
Definition truth (media : Media.t) : bool := true.

(** [Media.objects.get(pk=key)] for a key read from [media_list]: the key
    is converted to an integer, and [DoesNotExist] is raised when no record
    has it as its id. *)
Definition Media_objects_get (key : string) : M World Media.t :=
  n ← or_raise (int key) ValueError;
  w ← gets Media_objects;
  or_raise (List.find (λ media, bool_decide (Media.id media = n)) w)
           DoesNotExist.

(** [Temp.objects.get(name=name)] *)
Definition Temp_objects_get (name : string) : M World Temp.t :=
  t ← gets Temp_objects;
  or_raise (Temp.mk name <$> t !! name) DoesNotExist.

(** [Temp.objects.create()]: a new instance, not named yet; its row is in
    the table once it is saved under its name. *)
Definition Temp_objects_create : M World Temp.t :=
  mret (Temp.mk EmptyString EmptyString).

(** [temp.save()] *)
Definition Temp_save (temp : Temp.t) : M World unit :=
  modify (λ w, set_Temp_objects
                 (<[Temp.name temp := Temp.content temp]> (Temp_objects w)) w).

(** [with media.content.open(mode="rb") as text_file:
       text_file.read().decode("utf-8")] *)
Definition read_text (media : Media.t) : M World string :=
  or_raise (FieldFile.text (Media.content media)) ContentError.

(** [TEXT_LOGIC_NAME.format(pk)] *)
Definition TEXT_LOGIC_NAME (pk : Z) : string := "text-logic-cache:" +:+ str pk.

Definition no_data : Payload := json_dumps "txt" "No data to show".

(** ** The module *)

Section Logics.

(** [MAX_MEDIA_COUNT] is imported from [models.py]; the module is
    parameterised by it, a bound on the length of a list. *)
Variable MAX_MEDIA_COUNT : nat.

(** [add_state(logic, message)] *)
Definition add_state (message : string) : M Frame unit :=
  now ← on_db datetime_today;
  state ← attr Logic.state;
  assign (Logic.set_state (state +:+ now +:+ " " +:+ message +:+ newline));;
  save.

(** The tag test of both selectors:
    [not set(media.tag.split()).isdisjoint(tag_list)]. *)
Definition tag_in (media : Media.t) (tag_list : list string) : bool :=
  let media_tag_list := split (Media.tag media) in
  negb (isdisjoint (list_to_set media_tag_list) tag_list).

(** The loop of [media_prep] over [media_all]; [media_list] is the result
    list built so far. *)
Fixpoint media_scan (ext_list tag_list : list string)
    (media_all : list Media.t) (media_list : list Z) : list Z :=
  match media_all with
  | [] => media_list
  | media :: rest =>
      if bool_decide (Media.ext media = "txt") then
        (* continue *)
        media_scan ext_list tag_list rest media_list
      else if bool_decide ("*" ∈ ext_list)
              || bool_decide (Media.ext media ∈ ext_list) then
        let matched :=
          if bool_decide ("*" ∈ tag_list) then true
          else tag_in media tag_list in
        if matched then
          (* len(media_list) >= MAX_MEDIA_COUNT *)
          if bool_decide (MAX_MEDIA_COUNT ≤ length media_list)%nat then
            (* break *)
            media_list
          else media_scan ext_list tag_list rest
                          (media_list ++ [Media.id media])
        else media_scan ext_list tag_list rest media_list
      else media_scan ext_list tag_list rest media_list
  end.

(** [media_prep(logic)] *)
Definition media_prep : M Frame unit :=
  add_state "media_prep started.";;
  media_ext ← attr Logic.media_ext;
  let ext_list := split media_ext in
  assign (Logic.set_media_ext (join " " ext_list));;
  media_tag ← attr Logic.media_tag;
  let tag_list := split media_tag in
  assign (Logic.set_media_tag (join " " tag_list));;
  media_all ← on_db Media_objects_all;
  let media_all := reverse (order_by_id media_all) in
  let media_list := media_scan ext_list tag_list media_all [] in
  media_order ← attr Logic.media_order;
  media_list ← (if bool_decide (media_order = "shuffle")
                then on_db (random_shuffle media_list)
                else mret media_list);
  let media_list_str := join " " (str <$> media_list) in
  assign (Logic.set_media_list media_list_str);;
  assign (Logic.set_media_count (Z.of_nat (length media_list)));;
  add_state "media_prep finished.".

(** [media_get_content(trial, seq)] *)
Definition media_get_content (trial : Trial.t) (seq : Z) : M World Payload :=
  let logic := Trial.logic trial in
  let media_list := split (Logic.media_list logic) in
  let media_count := length media_list in
  if bool_decide (media_count = 0%nat) then mret no_data
  else
    let media_index := seq `mod` Z.of_nat media_count in
    key ← or_raise (getitem media_list media_index) IndexError;
    media ← Media_objects_get key;
    if truth media then
      mret (json_dumps (Media.ext media)
                       (FieldFile.url (Media.content media)))
    else raise Http404.

(** The loop of [text_prep] over [media_all]; [text_list] is the list of
    lines read so far. *)
Fixpoint text_scan (tag_list : list string) (media_all : list Media.t)
    (text_list : list string) : M World (list string) :=
  match media_all with
  | [] => mret text_list
  | media :: rest =>
      if bool_decide (Media.ext media = "txt") then
        if tag_in media tag_list then
          text ← read_text media;
          let lines := splitlines text in
          text_scan tag_list rest (text_list ++ lines)
        else text_scan tag_list rest text_list
      else text_scan tag_list rest text_list
  end.

(** [text_prep(logic)] *)
Definition text_prep : M Frame unit :=
  add_state "text_prep started.";;
  media_tag ← attr Logic.media_tag;
  let tag_list := split media_tag in
  assign (Logic.set_media_tag (join " " tag_list));;
  media_all ← on_db Media_objects_all;
  text_list ← on_db (text_scan tag_list media_all []);
  let index_list := Z.of_nat <$> seq 0 (length text_list) in
  media_order ← attr Logic.media_order;
  index_list ← (if bool_decide (media_order = "shuffle")
                then on_db (random_shuffle index_list)
                else mret index_list);
  let max_index := (length index_list `min` MAX_MEDIA_COUNT)%nat in
  let media_list_str := join " " (str <$> take max_index index_list) in
  assign (Logic.set_media_list media_list_str);;
  assign (Logic.set_media_count (Z.of_nat max_index));;
  pk ← attr Logic.pk;
  let name := TEXT_LOGIC_NAME pk in
  temp ← on_db (try_except (Temp_objects_get name) DoesNotExist
                  (temp ← Temp_objects_create;
                   mret (Temp.mk name (Temp.content temp))));
  let temp := Temp.mk (Temp.name temp) (join " " text_list) in
  on_db (Temp_save temp);;
  add_state "text_prep finished.".

(** [text_get_content(trial, seq)] *)
Definition text_get_content (trial : Trial.t) (seq : Z) : M World Payload :=
  let logic := Trial.logic trial in
  let index_list := split (Logic.media_list logic) in
  let index_count := length index_list in
  if bool_decide (index_count = 0%nat) then mret no_data
  else
    let name := TEXT_LOGIC_NAME (Logic.pk logic) in
    temp ← Temp_objects_get name;
    let text_list := split (Temp.content temp) in
    index ← or_raise (getitem index_list (seq `mod` Z.of_nat index_count))
                     IndexError;
    real_index ← or_raise (int index) ValueError;
    text ← or_raise (getitem text_list real_index) IndexError;
    mret (json_dumps "txt" text).

(** [blank_prep(logic)] *)
Definition blank_prep : M Frame unit :=
  add_state "blank_prep started.";;
  add_state "blank_prep finished.".

(** [blank_get_content(trial, seq)] *)
Definition blank_get_content (trial : Trial.t) (seq : Z) : M World Payload :=
  mret (json_dumps "txt" "").

(** [prep(logic)] *)
Definition prep : M Frame unit :=
  assign (Logic.set_media_list "");;
  assign (Logic.set_media_count 0);;
  assign (Logic.set_state "");;
  save;;
  implement ← attr Logic.implement;
  (if bool_decide (implement = "media") then media_prep
   else if bool_decide (implement = "text") then text_prep
   else if bool_decide (implement = "blank") then blank_prep
   else raise Http404);;
  save.

(** [get_content(trial, seq)] *)
Definition get_content (trial : Trial.t) (seq : Z) : M World Payload :=
  let logic := Trial.logic trial in
  if bool_decide (Logic.implement logic = "media") then
    media_get_content trial seq
  else if bool_decide (Logic.implement logic = "text") then
    text_get_content trial seq
  else if bool_decide (Logic.implement logic = "blank") then
    blank_get_content trial seq
  else raise Http404.

End Logics.

(** * Notions used by the properties *)

(** [c.isdigit()] for the ASCII digits. *)
Definition isdigit (c : ascii) : bool :=
  let n := code c in ((48 <=? n) && (n <=? 57))%N.

(** The test of the extension filter and of the tag filter in the loop of
    [media_prep]. *)
Definition passes_filters (ext_list tag_list : list string)
    (media : Media.t) : bool :=
  (bool_decide ("*" ∈ ext_list)
   || bool_decide (Media.ext media ∈ ext_list))
  && (if bool_decide ("*" ∈ tag_list) then true else tag_in media tag_list).

(** The condition under which the loop of [media_prep] reaches its
    [if matched:] with [matched] true. *)
Definition accepts (ext_list tag_list : list string) (media : Media.t)
    : bool :=
  negb (bool_decide (Media.ext media = "txt"))
  && passes_filters ext_list tag_list media.

(** The condition of [accepts] in the words of the specification. *)
Definition ext_matches (ext_list : list string) (media : Media.t) : Prop :=
  "*" ∈ ext_list ∨ Media.ext media ∈ ext_list.

Definition tags_intersect (tag_list : list string) (media : Media.t) : Prop :=
  ∃ t, t ∈ split (Media.tag media) ∧ t ∈ tag_list.

Definition tag_matches (tag_list : list string) (media : Media.t) : Prop :=
  "*" ∈ tag_list ∨ tags_intersect tag_list media.

Definition eligible (ext_list tag_list : list string) (media : Media.t)
    : Prop :=
  Media.ext media ≠ "txt" ∧ ext_matches ext_list media
  ∧ tag_matches tag_list media.

(** The condition under which the loop of [text_prep] reads a record. *)
Definition text_accepts (tag_list : list string) (media : Media.t) : bool :=
  bool_decide (Media.ext media = "txt") && tag_in media tag_list.

(** The lines gathered by the loop of [text_prep], as a function of the
    catalog alone: the loop reads no other part of the database. *)
Fixpoint text_collect (tag_list : list string) (media_all : list Media.t)
    (text_list : list string) : result (list string) :=
  match media_all with
  | [] => Return text_list
  | media :: rest =>
      if text_accepts tag_list media then
        match FieldFile.text (Media.content media) with
        | Some text =>
            text_collect tag_list rest (text_list ++ splitlines text)
        | None => Raise ContentError
        end
      else text_collect tag_list rest text_list
  end.

(** The accepted records in the order of the scan. *)
Definition ranked (fr : Frame) : list Media.t :=
  filter (λ m, accepts (split (Logic.media_ext (self fr)))
                       (split (Logic.media_tag (self fr))) m)
         (reverse (order_by_id (Media_objects (db fr)))).

Section Selections.
Variable MAX_MEDIA_COUNT : nat.

(** The id list that [media_prep] stores for a frame. *)
Definition media_selection (fr : Frame) : list Z :=
  let logic := self fr in
  let ids :=
    media_scan MAX_MEDIA_COUNT
      (split (Logic.media_ext logic)) (split (Logic.media_tag logic))
      (reverse (order_by_id (Media_objects (db fr)))) [] in
  if bool_decide (Logic.media_order logic = "shuffle")
  then shuffle (random (db fr)) (drawn (db fr)) ids
  else ids.

(** The index list that [text_prep] stores for a frame when the scan has
    gathered [text_list]. *)
Definition text_selection (fr : Frame) (text_list : list string) : list Z :=
  let index_list := Z.of_nat <$> seq 0 (length text_list) in
  let index_list :=
    if bool_decide (Logic.media_order (self fr) = "shuffle")
    then shuffle (random (db fr)) (drawn (db fr)) index_list
    else index_list in
  take (length index_list `min` MAX_MEDIA_COUNT)%nat index_list.

End Selections.

(** What every run of [prep] leaves untouched. *)
Definition prep_frame (fr fr' : Frame) : Prop :=
  Logic.pk (self fr') = Logic.pk (self fr)
  ∧ Logic.implement (self fr') = Logic.implement (self fr)
  ∧ Media_objects (db fr') = Media_objects (db fr)
  ∧ ∀ k, k ≠ Logic.pk (self fr) →
         Logic_objects (db fr') !! k = Logic_objects (db fr) !! k.

(** The instance is the row stored under its key: the effect of
    [logic.save()]. *)
Definition saved (fr' : Frame) : Prop :=
  Logic_objects (db fr') !! Logic.pk (self fr') = Some (self fr').

(** The three values that [prep] writes before it dispatches. *)
Definition reset (logic : Logic.t) : Logic.t :=
  Logic.set_state ""
    (Logic.set_media_count 0 (Logic.set_media_list "" logic)).

(** Concrete databases on which the properties are exercised. *)
Module Fixture.

Definition file (text : string) : FieldFile.t :=
  FieldFile.mk "/media/file" (Some text).

Definition world (catalog : list Media.t) : World :=
  mkWorld catalog ∅ ∅ (λ _, "2020-01-01 00:00:00.000000") 0 (λ n, n) 0.

Definition logic (implement media_ext media_tag media_order : string)
    : Logic.t :=
  Logic.mk 7 implement media_ext media_tag media_order "" 0 "".

(** The catalog of the media selector example. *)
Definition pictures : list Media.t :=
  [ Media.mk 1 "jpg" "a b" (file "");
    Media.mk 2 "txt" "a" (file "");
    Media.mk 3 "png" "c" (file "") ].

(** Two text records with the lines a, b and c, and a picture between
    them. *)
Definition texts : list Media.t :=
  [ Media.mk 1 "txt" "a" (file ("a" +:+ newline +:+ "b"));
    Media.mk 2 "jpg" "a" (file "");
    Media.mk 3 "txt" "a b" (file ("c" +:+ newline)) ].

(** [n] records of extension [ext] with the ids 1 to [n]. *)
Definition crowd (ext : string) (n : nat) : list Media.t :=
  (λ i, Media.mk (Z.of_nat i) ext "a" (file "")) <$> seq 1 n.

(** A text file with an empty line between two words. *)
Definition spaced : list Media.t :=
  [ Media.mk 1 "txt" "a" (file ("a" +:+ newline +:+ newline +:+ "b")) ].

(** The database after the media records and the [Temp] entries have been
    deleted from outside. *)
Definition purge (w : World) : World :=
  mkWorld [] (Logic_objects w) ∅ (today w) (clock w) (random w) (drawn w).

Definition media_frame : Frame :=
  mkFrame (logic "media" "*" "a" "sequential") (world pictures).

Definition text_frame : Frame :=
  mkFrame (logic "text" "*" "a" "sequential") (world texts).

(** Two pictures that both pass the filters. *)
Definition crowded_frame : Frame :=
  mkFrame (logic "media" "*" "*" "sequential") (world (crowd "jpg" 2)).

(** A trial whose [Logic] has been prepared with two ids. *)
Definition trial : Trial.t :=
  Trial.mk (Logic.mk 7 "media" "*" "a" "sequential" "1 3" 2 "").

Definition unknown_logic : Logic.t := logic "video" "*" "*" "sequential".

End Fixture.

(** ** Notions used by the further properties *)

(** The discriminators that [prep] and [get_content] know. *)
Definition known (implement : string) : Prop :=
  implement = "media" ∨ implement = "text" ∨ implement = "blank".

(** [for message in messages: add_state(logic, message)] *)
Fixpoint add_states (messages : list string) : M Frame unit :=
  match messages with
  | [] => mret ()
  | message :: rest => add_state message;; add_states rest
  end.

(** The lines that successive [add_state] calls write when the first of
    them reads the clock at [clock]. *)
Fixpoint log_lines (today : nat → string) (clock : nat)
    (messages : list string) : string :=
  match messages with
  | [] => ""
  | message :: rest =>
      today clock +:+ " " +:+ message +:+ newline
      +:+ log_lines today (S clock) rest
  end.

(** A record that the loop of [text_prep] reads and cannot decode. *)
Definition unreadable (tag_list : list string) (media : Media.t) : Prop :=
  text_accepts tag_list media
  ∧ FieldFile.text (Media.content media) = None.

(** The lines of the records that the loop of [text_prep] reads, in scan
    order. *)
Definition text_lines (tag_list : list string) (media_all : list Media.t)
    : list string :=
  mjoin ((λ media, splitlines (default "" (FieldFile.text
                                              (Media.content media))))
         <$> filter (λ m, text_accepts tag_list m) media_all).

(** The instance that a successful [prep] leaves: the filters, the list
    and the count that the selector [mode] has written, and a log of two
    lines. *)
Definition prepared (fr : Frame) (mode media_ext media_tag media_list : string)
    (media_count : Z) : Logic.t :=
  Logic.mk (Logic.pk (self fr)) (Logic.implement (self fr))
    media_ext media_tag (Logic.media_order (self fr)) media_list media_count
    (log_lines (today (db fr)) (clock (db fr))
       [mode +:+ "_prep started."; mode +:+ "_prep finished."]).

(** The frame [fr'] holds the instance [logic'], saved under its key, the
    [Temp] table [temps'] and the position [drawn'] of the random
    generator; the clock has been read twice and nothing else differs from
    [fr]. *)
Definition prepared_as (fr fr' : Frame) (logic' : Logic.t)
    (temps' : gmap string string) (drawn' : nat) : Prop :=
  self fr' = logic'
  ∧ Logic_objects (db fr') !! Logic.pk (self fr) = Some logic'
  ∧ (∀ k, k ≠ Logic.pk (self fr) →
          Logic_objects (db fr') !! k = Logic_objects (db fr) !! k)
  ∧ Media_objects (db fr') = Media_objects (db fr)
  ∧ Temp_objects (db fr') = temps'
  ∧ today (db fr') = today (db fr)
  ∧ clock (db fr') = S (S (clock (db fr)))
  ∧ random (db fr') = random (db fr)
  ∧ drawn (db fr') = drawn'.

(** The position of the random generator after a list of [n] items has
    been shuffled, or not. *)
Definition drawn_after (fr : Frame) (n : nat) : nat :=
  if bool_decide (Logic.media_order (self fr) = "shuffle")
  then (drawn (db fr) + (n - 1))%nat
  else drawn (db fr).

(** Further databases on which the properties are exercised. *)
Module Sample.

(** Words, one per line, in two text files. *)
Definition words : list Media.t :=
  [ Media.mk 4 "txt" "w" (Fixture.file ("red" +:+ newline +:+ "green"));
    Media.mk 9 "png" "w" (Fixture.file "");
    Media.mk 6 "txt" "w v" (Fixture.file ("blue" +:+ newline)) ].

(** A text record whose file cannot be decoded, after a readable one. *)
Definition broken : list Media.t :=
  [ Media.mk 4 "txt" "w" (Fixture.file "red");
    Media.mk 5 "txt" "w" (FieldFile.mk "/media/broken" None) ].

(** Five pictures with the ids 1 to 5. *)
Definition gallery : list Media.t := Fixture.crowd "jpg" 5.

Definition world (catalog : list Media.t) : World :=
  mkWorld catalog ∅ {[ "other" := "kept" ]}
          (λ n, "day " +:+ str (Z.of_nat n)) 10 (λ n, n * 7 + 3)%nat 0.

Definition logic (implement media_ext media_tag media_order : string)
    : Logic.t :=
  Logic.mk 3 implement media_ext media_tag media_order "9 9" 2 "old log".

Definition words_frame (media_order : string) : Frame :=
  mkFrame (logic "text" "" "  w " media_order) (world words).

Definition broken_frame : Frame :=
  mkFrame (logic "text" "" "w" "sequential") (world broken).

Definition gallery_frame (media_order : string) : Frame :=
  mkFrame (logic "media" " jpg  png " "*" media_order) (world gallery).

Definition blank_frame : Frame :=
  mkFrame (logic "blank" "" "" "") (world gallery).

End Sample.

(** Unfolds the operations of the monad and the accessors of the records,
    and nothing of the list and string functions. *)
Ltac run :=
  cbv [prep media_prep text_prep blank_prep add_state get_content
       media_get_content text_get_content blank_get_content
       mbind mret M_bind M_ret raise gets modify or_raise on_db attr assign
       save datetime_today random_shuffle Media_objects_all Media_objects_get
       Temp_objects_get Temp_objects_create Temp_save try_except read_text
       self db Trial.logic
       Logic.pk Logic.implement Logic.media_ext Logic.media_tag
       Logic.media_order Logic.media_list Logic.media_count Logic.state
       Logic.set_media_ext Logic.set_media_tag Logic.set_media_list
       Logic.set_media_count Logic.set_state
       Media_objects Logic_objects Temp_objects today clock random drawn
       set_Logic_objects set_Temp_objects set_clock set_drawn
       Temp.name Temp.content].

Ltac open_frame fr :=
  let l := fresh "l" in
  let w := fresh "w" in
  destruct fr as [l w];
  destruct l as [pk implement media_ext media_tag media_order
                 media_list media_count state];
  destruct w as [medias logics temps today clock random drawn].

(** * Properties *)

(** ** Splitting and joining *)

Section SplitJoin.

Lemma append_cons c (s t : string) : String c s +:+ t = String c (s +:+ t).
Proof. reflexivity. Qed.

Lemma append_nil_r (s : string) : s +:+ "" = s.
Proof.
  induction s as [|c s IH]; [done|]. by rewrite append_cons, IH.
Qed.

Lemma append_assoc (s t u : string) : (s +:+ t) +:+ u = s +:+ (t +:+ u).
Proof.
  induction s as [|c s IH]; [done|]. by rewrite !append_cons, IH.
Qed.

Lemma all_chars_app p (s t : string) :
  all_chars p (s +:+ t) = all_chars p s && all_chars p t.
Proof.
  induction s as [|c s IH]; [done|].
  rewrite append_cons. simpl. by rewrite IH, andb_assoc.
Qed.

(** A run of non-whitespace characters is added to the current token. *)
Lemma split_go_run (t cur rest : string) :
  all_chars (λ c, negb (isspace c)) t = true →
  split_go cur (t +:+ rest) = split_go (cur +:+ t) rest.
Proof.
  revert cur; induction t as [|c t IH]; intros cur Ht.
  - by rewrite append_nil_r.
  - simpl in Ht. apply andb_true_iff in Ht as [Hc Ht].
    apply negb_true_iff in Hc. rewrite append_cons. simpl.
    rewrite Hc, IH by done.
    by rewrite append_assoc.
Qed.

Lemma split_go_space c (cur rest : string) :
  isspace c = true →
  split_go cur (String c rest) = emit cur ++ split_go "" rest.
Proof. intros Hc. simpl. by rewrite Hc. Qed.

Lemma join_cons (sep t u : string) (l : list string) :
  join sep (t :: u :: l) = t +:+ sep +:+ join sep (u :: l).
Proof. reflexivity. Qed.

Lemma is_token_spec (t : string) :
  is_token t = true ↔
  t ≠ "" ∧ all_chars (λ c, negb (isspace c)) t = true.
Proof.
  destruct t as [|c t]; simpl; [split; [done | by intros [? _]]|].
  split; [by intros ? | by intros [_ ?]].
Qed.

Lemma emit_token (t : string) : is_token t = true → emit t = [t].
Proof. by destruct t. Qed.

(** [" ".join(l).split()] gives [l] back when every item of [l] is a
    token: the round trip behind [media_list]. *)
Lemma split_join (l : list string) :
  Forall (λ t, is_token t = true) l → split (join " " l) = l.
Proof.
  unfold split. induction 1 as [|t l Ht Hl IH]; [done|].
  pose proof Ht as [_ Hns]%is_token_spec.
  destruct l as [|u l].
  - change (join " " [t]) with t. rewrite <-(append_nil_r t) at 1.
    rewrite split_go_run by done. by apply emit_token.
  - rewrite join_cons, split_go_run by done.
    change (" " +:+ join " " (u :: l))
      with (String " " (join " " (u :: l))).
    rewrite split_go_space by done.
    change ("" +:+ t) with t. by rewrite emit_token, IH.
Qed.

Lemma all_chars_impl (p q : ascii → bool) (s : string) :
  (∀ c, p c = true → q c = true) →
  all_chars p s = true → all_chars q s = true.
Proof.
  intros Hpq. induction s as [|c s IH]; simpl; [done|].
  rewrite !andb_true_iff. intros [? ?]. auto.
Qed.

Lemma isdigit_not_space c : isdigit c = true → negb (isspace c) = true.
Proof.
  unfold isdigit, isspace. generalize (code c). intros n.
  rewrite negb_true_iff, andb_true_iff, !orb_false_iff, !andb_false_iff.
  rewrite !N.leb_le, !N.leb_gt, !N.eqb_neq. lia.
Qed.

Lemma uint_digits (d : Decimal.uint) :
  all_chars isdigit (NilEmpty.string_of_uint d) = true.
Proof. induction d; simpl; try done. Qed.

Lemma uint_is_token (d : Decimal.uint) :
  is_token (NilZero.string_of_uint d) = true.
Proof.
  apply is_token_spec. split; [by destruct d|].
  apply all_chars_impl with isdigit; [apply isdigit_not_space|].
  destruct d; try done; apply (uint_digits (_ d)).
Qed.

(** [str(n)] is one token. *)
Lemma str_is_token (n : Z) : is_token (str n) = true.
Proof.
  unfold str. destruct (Z.to_int n) as [d|d]; simpl.
  - apply uint_is_token.
  - pose proof (uint_is_token d) as [_ H]%is_token_spec. exact H.
Qed.

Lemma split_join_str (l : list Z) :
  split (join " " (str <$> l)) = str <$> l.
Proof.
  apply split_join, Forall_fmap, Forall_forall.
  intros n _. apply str_is_token.
Qed.

(** [int(str(n)) == n] *)
Lemma int_str (n : Z) : int (str n) = Some n.
Proof.
  unfold int, str. rewrite NilZero.isi.
  - simpl. by rewrite DecimalZ.of_to.
  - destruct n; simpl; try done.
    unfold Pos.to_int. intros [= H]. by destruct (DecimalPos.Unsigned.to_uint_nonnil p).
  - destruct n; simpl; try done.
    intros [= H]. by destruct (DecimalPos.Unsigned.to_uint_nonnil p).
Qed.

End SplitJoin.

(** ** Shuffling and sorting *)

Section Lists.
Context {A : Type}.
Implicit Types x : list A.

Lemma swap_Permutation x i j : swap x i j ≡ₚ x.
Proof.
  unfold swap.
  destruct (x !! i) as [xi|] eqn:Hi; [|done].
  destruct (x !! j) as [xj|] eqn:Hj; [|done].
  by apply Permutation_insert_swap.
Qed.

Lemma shuffle_go_Permutation rnd pos i x : shuffle_go rnd pos i x ≡ₚ x.
Proof.
  revert pos x. induction i as [|i IH]; intros pos x; simpl; [done|].
  by rewrite IH, swap_Permutation.
Qed.

(** [random.shuffle] rearranges the list, whatever the draws. *)
Lemma shuffle_Permutation rnd pos x : shuffle rnd pos x ≡ₚ x.
Proof. apply shuffle_go_Permutation. Qed.

Lemma shuffle_length rnd pos x : length (shuffle rnd pos x) = length x.
Proof. by rewrite shuffle_Permutation. Qed.

End Lists.

Lemma filter_Forall {A} (P : A → Prop) `{∀ x, Decision (P x)} (l : list A) :
  Forall P l → filter P l = l.
Proof.
  induction 1 as [|x l Hx _ IH]; [done|].
  by rewrite filter_cons_True, IH.
Qed.

Lemma getitem_nonneg {A} (l : list A) (i : Z) :
  0 ≤ i → getitem l i = l !! Z.to_nat i.
Proof.
  intros Hi. unfold getitem.
  by rewrite !(proj2 (Z.ltb_ge i 0)) by done.
Qed.

Lemma order_by_id_Permutation l : order_by_id l ≡ₚ l.
Proof. apply merge_sort_Permutation. Qed.

(** ** The scan of the media selector *)

Lemma isdisjoint_false (s : gset string) (other : list string) :
  isdisjoint s other = false ↔ ∃ t, t ∈ s ∧ t ∈ other.
Proof.
  unfold isdisjoint. induction other as [|u other IH]; simpl.
  - split; [done|]. intros (t & _ & Ht). by apply not_elem_of_nil in Ht.
  - rewrite andb_false_iff, negb_false_iff, bool_decide_eq_true, IH.
    split.
    + intros [Hu|(t & Hs & Ht)]; [exists u | exists t];
        (split; [done|]); [left | by right].
    + intros (t & Hs & [->|Ht]%elem_of_cons); [by left|].
      right. by exists t.
Qed.

Lemma tag_in_spec media tag_list :
  tag_in media tag_list = true ↔ tags_intersect tag_list media.
Proof.
  unfold tag_in, tags_intersect.
  rewrite negb_true_iff, isdisjoint_false.
  by setoid_rewrite elem_of_list_to_set.
Qed.

Lemma accepts_spec ext_list tag_list media :
  accepts ext_list tag_list media = true ↔ eligible ext_list tag_list media.
Proof.
  unfold accepts, passes_filters, eligible, ext_matches, tag_matches.
  rewrite !andb_true_iff, negb_true_iff, bool_decide_eq_false.
  rewrite orb_true_iff, !bool_decide_eq_true, <-tag_in_spec.
  case_bool_decide; tauto.
Qed.

Section Scan.
Variable MAX_MEDIA_COUNT : nat.

Lemma media_scan_cons ext_list tag_list media rest media_list :
  media_scan MAX_MEDIA_COUNT ext_list tag_list (media :: rest) media_list =
  if accepts ext_list tag_list media then
    if bool_decide (MAX_MEDIA_COUNT ≤ length media_list)%nat then media_list
    else media_scan MAX_MEDIA_COUNT ext_list tag_list rest
                    (media_list ++ [Media.id media])
  else media_scan MAX_MEDIA_COUNT ext_list tag_list rest media_list.
Proof.
  simpl. unfold accepts, passes_filters.
  destruct (bool_decide (Media.ext media = "txt")); [done|].
  destruct (bool_decide ("*" ∈ ext_list) ||
            bool_decide (Media.ext media ∈ ext_list)); [|done].
  by destruct (if bool_decide ("*" ∈ tag_list) then true
               else tag_in media tag_list).
Qed.

(** The scan keeps the ids of the accepted records, in scan order, up to
    [MAX_MEDIA_COUNT] of them. *)
Lemma media_scan_spec ext_list tag_list media_all media_list :
  (length media_list ≤ MAX_MEDIA_COUNT)%nat →
  media_scan MAX_MEDIA_COUNT ext_list tag_list media_all media_list =
  take MAX_MEDIA_COUNT
    (media_list ++
       (Media.id <$> filter (λ m, accepts ext_list tag_list m) media_all)).
Proof.
  revert media_list.
  induction media_all as [|media rest IH]; intros media_list Hlen.
  - simpl. by rewrite app_nil_r, take_ge.
  - rewrite media_scan_cons.
    destruct (accepts ext_list tag_list media) eqn:Hacc.
    + rewrite filter_cons_True by (by apply Is_true_true).
      case_bool_decide as Hfull.
      * rewrite take_app_le by lia. by rewrite take_ge by lia.
      * rewrite IH by (rewrite length_app; simpl; lia).
        by rewrite <-app_assoc.
    + rewrite filter_cons_False by (by apply Is_true_false). by apply IH.
Qed.

End Scan.

(** ** Running the dispatcher *)

Lemma text_scan_run tag_list media_all text_list w :
  text_scan tag_list media_all text_list w =
  (text_collect tag_list media_all text_list, w).
Proof.
  revert text_list. induction media_all as [|media rest IH];
    intros text_list; simpl; [done|].
  unfold text_accepts.
  case_bool_decide; simpl; [|done].
  destruct (tag_in media tag_list); [|done].
  unfold read_text, mbind, M_bind, or_raise.
  destruct (FieldFile.text (Media.content media)); simpl; [|done].
  apply IH.
Qed.

Section Runs.
Variable MAX_MEDIA_COUNT : nat.

Lemma prep_media_run fr :
  Logic.implement (self fr) = "media" →
  ∃ fr', prep MAX_MEDIA_COUNT fr = (Return (), fr')
    ∧ Logic.media_list (self fr') = join " " (str <$> media_selection MAX_MEDIA_COUNT fr)
    ∧ Logic.media_count (self fr') = Z.of_nat (length (media_selection MAX_MEDIA_COUNT fr))
    ∧ Temp_objects (db fr') = Temp_objects (db fr)
    ∧ saved fr' ∧ prep_frame fr fr'.
Proof.
  intros Himpl. open_frame fr. simpl in Himpl. subst implement.
  unfold media_selection, saved, prep_frame. run.
  change (bool_decide ("media" = "media")) with true. run.
  repeat (case_bool_decide; try done; run);
    (eexists; split; [reflexivity|]); run;
    (repeat split; [apply lookup_insert_eq|]);
    intros k Hk; by rewrite !lookup_insert_ne.
Qed.

Lemma text_selection_length fr text_list :
  length (text_selection MAX_MEDIA_COUNT fr text_list)
  = (length text_list `min` MAX_MEDIA_COUNT)%nat.
Proof.
  unfold text_selection. rewrite length_take.
  case_bool_decide;
    rewrite ?shuffle_length, length_fmap, length_seq; lia.
Qed.

Lemma prep_text_run fr text_list :
  Logic.implement (self fr) = "text" →
  text_collect (split (Logic.media_tag (self fr)))
               (Media_objects (db fr)) [] = Return text_list →
  ∃ fr', prep MAX_MEDIA_COUNT fr = (Return (), fr')
    ∧ Logic.media_list (self fr')
      = join " " (str <$> text_selection MAX_MEDIA_COUNT fr text_list)
    ∧ Logic.media_count (self fr')
      = Z.of_nat (length (text_selection MAX_MEDIA_COUNT fr text_list))
    ∧ Temp_objects (db fr')
      = <[TEXT_LOGIC_NAME (Logic.pk (self fr)) := join " " text_list]>
          (Temp_objects (db fr))
    ∧ saved fr' ∧ prep_frame fr fr'.
Proof.
  intros Himpl Hscan. rewrite text_selection_length.
  open_frame fr. simpl in *. subst implement.
  unfold text_selection, saved, prep_frame. run.
  change (bool_decide ("text" = "media")) with false.
  change (bool_decide ("text" = "text")) with true. run.
  rewrite text_scan_run, Hscan. run.
  repeat (case_bool_decide; try done; run);
    destruct (temps !! TEXT_LOGIC_NAME pk); run;
    rewrite ?decide_True by done; run;
    (eexists; split; [reflexivity|]); run;
    rewrite ?shuffle_length, length_fmap, length_seq;
    (repeat split; [apply lookup_insert_eq|]);
    intros k Hk; by rewrite !lookup_insert_ne.
Qed.

Lemma prep_text_fail fr e :
  Logic.implement (self fr) = "text" →
  text_collect (split (Logic.media_tag (self fr)))
               (Media_objects (db fr)) [] = Raise e →
  ∃ fr', prep MAX_MEDIA_COUNT fr = (Raise e, fr').
Proof.
  intros Himpl Hscan. open_frame fr. simpl in *. subst implement. run.
  change (bool_decide ("text" = "media")) with false.
  change (bool_decide ("text" = "text")) with true. run.
  rewrite text_scan_run, Hscan. run. by eexists.
Qed.

Lemma prep_blank_run fr :
  Logic.implement (self fr) = "blank" →
  ∃ fr', prep MAX_MEDIA_COUNT fr = (Return (), fr')
    ∧ Logic.media_list (self fr') = ""
    ∧ Logic.media_count (self fr') = 0
    ∧ Temp_objects (db fr') = Temp_objects (db fr)
    ∧ saved fr' ∧ prep_frame fr fr'.
Proof.
  intros Himpl. open_frame fr. simpl in Himpl. subst implement.
  unfold saved, prep_frame. run.
  change (bool_decide ("blank" = "media")) with false.
  change (bool_decide ("blank" = "text")) with false.
  change (bool_decide ("blank" = "blank")) with true. run.
  (eexists; split; [reflexivity|]); run.
  (repeat split; [apply lookup_insert_eq|]).
  intros k Hk; by rewrite !lookup_insert_ne.
Qed.

Lemma prep_unknown_run fr :
  Logic.implement (self fr) ≠ "media" →
  Logic.implement (self fr) ≠ "text" →
  Logic.implement (self fr) ≠ "blank" →
  prep MAX_MEDIA_COUNT fr
  = (Raise Http404,
     mkFrame (reset (self fr))
       (set_Logic_objects
          (<[Logic.pk (self fr) := reset (self fr)]> (Logic_objects (db fr)))
          (db fr))).
Proof.
  intros Hm Ht Hb. open_frame fr. simpl in *. unfold reset. run.
  by rewrite !bool_decide_eq_false_2.
Qed.

End Runs.

(** ** The dispatcher *)

Section Dispatcher.
Variable MAX_MEDIA_COUNT : nat.

(** C3. After every successful [prep], whichever selector ran and whether
    or not the list was shuffled, the instance has been saved and its
    [media_count] is the number of tokens of its [media_list]. *)
Theorem prep_media_count (fr fr' : Frame) :
  prep MAX_MEDIA_COUNT fr = (Return (), fr') →
  saved fr'
  ∧ Logic.media_count (self fr')
    = Z.of_nat (length (split (Logic.media_list (self fr')))).
Proof.
  intros Hrun.
  destruct (decide (Logic.implement (self fr) = "media")) as [Hm|Hm].
  { destruct (prep_media_run MAX_MEDIA_COUNT fr Hm)
      as (fr2 & Hrun2 & Hlist & Hcount & _ & Hsaved & _).
    rewrite Hrun in Hrun2. injection Hrun2 as <-.
    split; [done|]. by rewrite Hlist, split_join_str, length_fmap. }
  destruct (decide (Logic.implement (self fr) = "text")) as [Ht|Ht].
  { destruct (text_collect (split (Logic.media_tag (self fr)))
                (Media_objects (db fr)) []) as [text_list|e] eqn:Hscan.
    - destruct (prep_text_run MAX_MEDIA_COUNT fr text_list Ht Hscan)
        as (fr2 & Hrun2 & Hlist & Hcount & _ & Hsaved & _).
      rewrite Hrun in Hrun2. injection Hrun2 as <-.
      split; [done|]. by rewrite Hlist, split_join_str, length_fmap.
    - destruct (prep_text_fail MAX_MEDIA_COUNT fr e Ht Hscan) as (fr2 & Hrun2).
      by rewrite Hrun in Hrun2. }
  destruct (decide (Logic.implement (self fr) = "blank")) as [Hb|Hb].
  { destruct (prep_blank_run MAX_MEDIA_COUNT fr Hb)
      as (fr2 & Hrun2 & Hlist & Hcount & _ & Hsaved & _).
    rewrite Hrun in Hrun2. injection Hrun2 as <-.
    split; [done|]. by rewrite Hlist, Hcount. }
  by rewrite prep_unknown_run in Hrun.
Qed.

(** C6. For a [Logic] whose [implement] names no selector, [prep] raises
    [Http404] after it has reset [media_list], [media_count] and [state]
    and saved the instance, so that the reset row is what the database
    holds, and nothing else of the database has changed; [get_content]
    raises [Http404] and leaves the database as it was. *)
Theorem unknown_implement_not_found (logic : Logic.t) :
  Logic.implement logic ≠ "media" →
  Logic.implement logic ≠ "text" →
  Logic.implement logic ≠ "blank" →
  (∀ w, ∃ fr',
      prep MAX_MEDIA_COUNT (mkFrame logic w) = (Raise Http404, fr')
      ∧ Logic.media_list (self fr') = ""
      ∧ Logic.media_count (self fr') = 0
      ∧ Logic.state (self fr') = ""
      ∧ Logic_objects (db fr') !! Logic.pk logic = Some (self fr')
      ∧ db fr' = set_Logic_objects (Logic_objects (db fr')) w
      ∧ ∀ k, k ≠ Logic.pk logic →
             Logic_objects (db fr') !! k = Logic_objects w !! k)
  ∧ (∀ seq w, get_content (Trial.mk logic) seq w = (Raise Http404, w)).
Proof.
  intros Hm Ht Hb. split.
  - intros w. eexists. split; [by apply prep_unknown_run|].
    simpl. repeat split.
    + apply lookup_insert_eq.
    + intros k Hk. by rewrite lookup_insert_ne.
  - intros seq w. unfold get_content. simpl.
    by rewrite !bool_decide_eq_false_2.
Qed.

End Dispatcher.

(** ** Sequence numbers *)

(** C5. For a media-mode [Logic] whose [media_list] holds [count] > 0
    tokens, [get_content] returns for [seq = count] what it returns for
    [seq = 0], and for [seq = count + k] what it returns for [seq = k],
    for every [k] ≥ 0. *)
Theorem media_get_content_wraparound (trial : Trial.t) (w : World) (k : Z) :
  let logic := Trial.logic trial in
  let count := Z.of_nat (length (split (Logic.media_list logic))) in
  Logic.implement logic = "media" →
  0 < count →
  0 ≤ k →
  get_content trial count w = get_content trial 0 w
  ∧ get_content trial (count + k) w = get_content trial k w.
Proof.
  intros logic count Himpl Hcount Hk. subst logic count.
  unfold get_content. rewrite Himpl.
  change (bool_decide ("media" = "media")) with true. cbv iota.
  unfold media_get_content.
  set (n := Z.of_nat _) in *.
  rewrite Z_mod_same_full, Zmod_0_l.
  replace (n + k) with (k + 1 * n) by lia.
  by rewrite Z_mod_plus_full.
Qed.

(** C10. For every integer [seq], negative ones included, and every
    non-empty token list, [seq mod count] lies in [0, count), the list
    lookup at that position succeeds, and both content accessors go on
    with the token found there: the [IndexError] of that lookup is never
    raised. *)
Theorem seq_index_in_range (trial : Trial.t) (seq : Z) (w : World) :
  let logic := Trial.logic trial in
  let tokens := split (Logic.media_list logic) in
  let count := Z.of_nat (length tokens) in
  tokens ≠ [] →
  0 ≤ seq `mod` count < count
  ∧ ∃ key,
      getitem tokens (seq `mod` count) = Some key
      ∧ tokens !! Z.to_nat (seq `mod` count) = Some key
      ∧ media_get_content trial seq w
        = (media ← Media_objects_get key;
           if truth media then
             mret (json_dumps (Media.ext media)
                              (FieldFile.url (Media.content media)))
           else raise Http404) w
      ∧ text_get_content trial seq w
        = (temp ← Temp_objects_get (TEXT_LOGIC_NAME (Logic.pk logic));
           real_index ← or_raise (int key) ValueError;
           text ← or_raise (getitem (split (Temp.content temp)) real_index)
                           IndexError;
           mret (json_dumps "txt" text)) w.
Proof.
  intros logic tokens count Hne.
  assert (0 < count) as Hpos.
  { subst count. destruct tokens; [done|]. simpl. lia. }
  pose proof (Z.mod_pos_bound seq count Hpos) as Hrange.
  split; [done|].
  destruct (lookup_lt_is_Some_2 tokens (Z.to_nat (seq `mod` count)))
    as [key Hkey]; [subst count; lia|].
  assert (getitem tokens (seq `mod` count) = Some key) as Hget.
  { by rewrite getitem_nonneg by lia. }
  exists key. repeat split; [done..| |].
  - unfold media_get_content. fold logic tokens count.
    rewrite bool_decide_eq_false_2 by (by destruct tokens).
    unfold mbind at 1, M_bind at 1. by rewrite Hget.
  - unfold text_get_content. fold logic tokens count.
    rewrite bool_decide_eq_false_2 by (by destruct tokens).
    unfold mbind, M_bind. destruct (Temp_objects_get _ w) as [[temp|e] w'];
      [|done].
    by rewrite Hget.
Qed.

(** ** The media selector *)

Global Instance str_inj : Inj (=) (=) str.
Proof.
  intros a b Hab. apply (f_equal int) in Hab.
  rewrite !int_str in Hab. by injection Hab.
Qed.

Lemma NoDup_fmap_elem {A B} (f : A → B) (l : list A) (x y : A) :
  NoDup (f <$> l) → x ∈ l → y ∈ l → f x = f y → x = y.
Proof.
  induction l as [|a l IH]; intros Hnd Hx Hy Hxy; [by inversion Hx|].
  rewrite fmap_cons in Hnd. apply NoDup_cons in Hnd as [Ha Hnd].
  apply elem_of_cons in Hx as [->|Hx]; apply elem_of_cons in Hy as [->|Hy];
    try done; [| |by apply IH].
  - destruct Ha. rewrite Hxy. by apply list_elem_of_fmap_2.
  - destruct Ha. rewrite <-Hxy. by apply list_elem_of_fmap_2.
Qed.

Section MediaSelector.
Variable MAX_MEDIA_COUNT : nat.

Lemma elem_of_ranked fr media :
  media ∈ ranked fr ↔
  media ∈ Media_objects (db fr)
  ∧ eligible (split (Logic.media_ext (self fr)))
             (split (Logic.media_tag (self fr))) media.
Proof.
  unfold ranked.
  rewrite list_elem_of_filter, elem_of_reverse, order_by_id_Permutation.
  rewrite Is_true_true, accepts_spec. tauto.
Qed.

Lemma ranked_length fr :
  length (ranked fr)
  = length (filter (λ m, accepts (split (Logic.media_ext (self fr)))
                                 (split (Logic.media_tag (self fr))) m)
                   (Media_objects (db fr))).
Proof.
  unfold ranked. by rewrite reverse_Permutation, order_by_id_Permutation.
Qed.

Lemma media_selection_Permutation fr :
  media_selection MAX_MEDIA_COUNT fr
  ≡ₚ take MAX_MEDIA_COUNT (Media.id <$> ranked fr).
Proof.
  unfold media_selection, ranked.
  rewrite media_scan_spec by (simpl; lia). simpl.
  case_bool_decide; [apply shuffle_Permutation | done].
Qed.

Lemma media_selection_sequential fr :
  Logic.media_order (self fr) ≠ "shuffle" →
  media_selection MAX_MEDIA_COUNT fr
  = take MAX_MEDIA_COUNT (Media.id <$> ranked fr).
Proof.
  intros Hseq. unfold media_selection, ranked.
  rewrite media_scan_spec by (simpl; lia). simpl.
  by rewrite bool_decide_eq_false_2.
Qed.

(** C1, as amended.  A media-mode [prep] stores the ids of the first
    [MAX_MEDIA_COUNT] records, in descending id order, whose extension is
    not "txt", whose extension matches the extension filter and whose tags
    match the tag filter; shuffling only rearranges them.  So when at most
    [MAX_MEDIA_COUNT] records satisfy the three conditions (and ids are
    distinct), a catalog record is selected if and only if it satisfies
    them.  For the three-record catalog of the specification with the
    filters ["*"] and ["a"], the selection is [1] and [media_count] is 1,
    provided [MAX_MEDIA_COUNT] is at least 1. *)
Theorem media_prep_selects (fr : Frame) :
  let ext_list := split (Logic.media_ext (self fr)) in
  let tag_list := split (Logic.media_tag (self fr)) in
  let catalog := Media_objects (db fr) in
  Logic.implement (self fr) = "media" →
  ∃ fr' ids,
    prep MAX_MEDIA_COUNT fr = (Return (), fr')
    ∧ split (Logic.media_list (self fr')) = str <$> ids
    ∧ Logic.media_count (self fr') = Z.of_nat (length ids)
    ∧ ids ≡ₚ take MAX_MEDIA_COUNT (Media.id <$> ranked fr)
    ∧ (Logic.media_order (self fr) ≠ "shuffle" →
       ids = take MAX_MEDIA_COUNT (Media.id <$> ranked fr))
    ∧ (∀ media, media ∈ ranked fr ↔
                media ∈ catalog ∧ eligible ext_list tag_list media)
    ∧ ((length (ranked fr) ≤ MAX_MEDIA_COUNT)%nat →
       NoDup (Media.id <$> catalog) →
       ∀ media, media ∈ catalog →
         (Media.id media ∈ ids ↔ eligible ext_list tag_list media))
    ∧ ((1 ≤ MAX_MEDIA_COUNT)%nat →
       ext_list = ["*"] → tag_list = ["a"] →
       ∀ c1 c2 c3,
         catalog = [ Media.mk 1 "jpg" "a b" c1; Media.mk 2 "txt" "a" c2;
                     Media.mk 3 "png" "c" c3 ] →
         ids = [1] ∧ Logic.media_list (self fr') = "1"
         ∧ Logic.media_count (self fr') = 1).
Proof.
  intros ext_list tag_list catalog Himpl.
  destruct (prep_media_run MAX_MEDIA_COUNT fr Himpl)
    as (fr' & Hrun & Hlist & Hcount & _).
  exists fr', (media_selection MAX_MEDIA_COUNT fr).
  split; [done|]. split; [by rewrite Hlist, split_join_str|].
  split; [done|]. split; [apply media_selection_Permutation|].
  split; [apply media_selection_sequential|].
  split; [apply elem_of_ranked|]. split.
  - intros Hfit Hnodup media Hin.
    rewrite media_selection_Permutation, take_ge by (by rewrite length_fmap).
    rewrite list_elem_of_fmap. split.
    + intros (m & Hid & Hm). apply elem_of_ranked in Hm as [Hm Hel].
      by rewrite (NoDup_fmap_elem Media.id catalog media m).
    + intros Hel. exists media. split; [done|]. by apply elem_of_ranked.
  - intros Hmax Hext Htag c1 c2 c3 Hcat.
    assert (media_selection MAX_MEDIA_COUNT fr = [1]) as Hsel.
    { unfold media_selection. rewrite media_scan_spec by (simpl; lia).
      fold ext_list tag_list catalog. rewrite Hext, Htag, Hcat.
      match goal with |- context [take _ ?l] =>
        replace l with [1] by (by vm_compute) end.
      rewrite take_ge by (simpl; lia). by case_bool_decide. }
    by rewrite Hlist, Hcount, Hsel.
Qed.

(** C4, as amended.  When strictly more than [MAX_MEDIA_COUNT] records of
    the catalog are accepted, that is, have an extension other than "txt"
    and match the extension and tag filters, a media-mode [prep] stores
    exactly [MAX_MEDIA_COUNT] ids. *)
Theorem media_prep_cap (fr : Frame) :
  let ext_list := split (Logic.media_ext (self fr)) in
  let tag_list := split (Logic.media_tag (self fr)) in
  Logic.implement (self fr) = "media" →
  (MAX_MEDIA_COUNT
   < length (filter (λ m, accepts ext_list tag_list m)
                    (Media_objects (db fr))))%nat →
  ∃ fr',
    prep MAX_MEDIA_COUNT fr = (Return (), fr')
    ∧ length (split (Logic.media_list (self fr'))) = MAX_MEDIA_COUNT
    ∧ Logic.media_count (self fr') = Z.of_nat MAX_MEDIA_COUNT.
Proof.
  intros ext_list tag_list Himpl Hmany.
  destruct (prep_media_run MAX_MEDIA_COUNT fr Himpl)
    as (fr' & Hrun & Hlist & Hcount & _).
  assert (length (media_selection MAX_MEDIA_COUNT fr) = MAX_MEDIA_COUNT)
    as Hlen.
  { rewrite media_selection_Permutation, length_take, length_fmap.
    rewrite ranked_length. fold ext_list tag_list. lia. }
  exists fr'. split; [done|].
  by rewrite Hlist, Hcount, split_join_str, length_fmap, Hlen.
Qed.

End MediaSelector.

(** ** The text selector *)

Lemma text_collect_filter tag_list media_all text_list :
  text_collect tag_list media_all text_list
  = text_collect tag_list
      (filter (λ m, text_accepts tag_list m) media_all) text_list.
Proof.
  revert text_list. induction media_all as [|media rest IH];
    intros text_list; [done|].
  destruct (text_accepts tag_list media) eqn:Hacc.
  - rewrite filter_cons_True by (by apply Is_true_true).
    simpl. rewrite Hacc.
    by destruct (FieldFile.text (Media.content media)).
  - rewrite filter_cons_False by (by apply Is_true_false).
    simpl. by rewrite Hacc.
Qed.

Section TextSelector.
Variable MAX_MEDIA_COUNT : nat.

(** C2. With [MAX_MEDIA_COUNT] at least 3: a text-mode [prep] without
    shuffle over a catalog whose records read by the scan are exactly two,
    with the lines a, b and the line c, stores "a b c" in the [Temp] entry
    of the [Logic], "0 1 2" in [media_list] and 3 in [media_count]; then
    [get_content] with [seq = 1] returns the payload of type "txt" and
    data "b". *)
Theorem text_prep_round_trip (fr : Frame) (r1 r2 : Media.t) (c1 c2 : string) :
  let tag_list := split (Logic.media_tag (self fr)) in
  (3 ≤ MAX_MEDIA_COUNT)%nat →
  Logic.implement (self fr) = "text" →
  Logic.media_order (self fr) ≠ "shuffle" →
  filter (λ m, text_accepts tag_list m) (Media_objects (db fr)) = [r1; r2] →
  FieldFile.text (Media.content r1) = Some c1 →
  splitlines c1 = ["a"; "b"] →
  FieldFile.text (Media.content r2) = Some c2 →
  splitlines c2 = ["c"] →
  ∃ fr',
    prep MAX_MEDIA_COUNT fr = (Return (), fr')
    ∧ Temp_objects (db fr') !! TEXT_LOGIC_NAME (Logic.pk (self fr'))
      = Some "a b c"
    ∧ Logic.media_list (self fr') = "0 1 2"
    ∧ Logic.media_count (self fr') = 3
    ∧ saved fr'
    ∧ get_content (Trial.mk (self fr')) 1 (db fr')
      = (Return (json_dumps "txt" "b"), db fr').
Proof.
  intros tag_list Hmax Himpl Hseq Hfilter Hc1 Hl1 Hc2 Hl2.
  assert (text_collect tag_list (Media_objects (db fr)) []
          = Return ["a"; "b"; "c"]) as Hscan.
  { assert (text_accepts tag_list r1 ∧ text_accepts tag_list r2) as [Hr1 Hr2].
    { assert (r1 ∈ [r1; r2] ∧ r2 ∈ [r1; r2]) as [H1 H2]
        by (split; [left | right; left]).
      rewrite <-Hfilter in H1, H2.
      apply list_elem_of_filter in H1 as [H1 _].
      by apply list_elem_of_filter in H2 as [H2 _]. }
    apply Is_true_true in Hr1, Hr2.
    rewrite text_collect_filter, Hfilter. simpl.
    by rewrite Hr1, Hc1, Hl1, Hr2, Hc2, Hl2. }
  destruct (prep_text_run MAX_MEDIA_COUNT fr _ Himpl Hscan)
    as (fr' & Hrun & Hlist & Hcount & Htemp & Hsaved & Hpk & Himpl' & _).
  assert (text_selection MAX_MEDIA_COUNT fr ["a"; "b"; "c"] = [0; 1; 2])
    as Hsel.
  { unfold text_selection. rewrite bool_decide_eq_false_2 by done.
    change (Z.of_nat <$> seq 0 (length ["a"; "b"; "c"])) with [0; 1; 2].
    change (length [0; 1; 2]) with 3%nat. by rewrite Nat.min_l by lia. }
  rewrite Hsel in Hlist, Hcount.
  change (join " " (str <$> [0; 1; 2])) with "0 1 2" in Hlist.
  change (join " " ["a"; "b"; "c"]) with "a b c" in Htemp.
  assert (Temp_objects (db fr') !! TEXT_LOGIC_NAME (Logic.pk (self fr'))
          = Some "a b c") as Hentry.
  { by rewrite Htemp, Hpk, lookup_insert_eq. }
  exists fr'. repeat split; try done.
  unfold get_content, text_get_content. cbn [Trial.logic].
  rewrite Himpl', Himpl, Hlist.
  change (bool_decide ("text" = "media")) with false.
  change (bool_decide ("text" = "text")) with true.
  change (split "0 1 2") with ["0"; "1"; "2"].
  change (bool_decide (length ["0"; "1"; "2"] = 0%nat)) with false.
  cbv [mbind M_bind Temp_objects_get gets]. rewrite Hentry.
  by vm_compute.
Qed.

End TextSelector.

Section TextSequential.
Variable MAX_MEDIA_COUNT : nat.

(** A text-mode [prep] without shuffle whose scan gathers no more than
    [MAX_MEDIA_COUNT] lines. *)
Lemma prep_text_sequential (fr : Frame) (text_list : list string) :
  Logic.implement (self fr) = "text" →
  Logic.media_order (self fr) ≠ "shuffle" →
  text_collect (split (Logic.media_tag (self fr)))
               (Media_objects (db fr)) [] = Return text_list →
  (length text_list ≤ MAX_MEDIA_COUNT)%nat →
  ∃ fr',
    prep MAX_MEDIA_COUNT fr = (Return (), fr')
    ∧ Logic.implement (self fr') = "text"
    ∧ Logic.media_list (self fr')
      = join " " (str <$> (Z.of_nat <$> seq 0 (length text_list)))
    ∧ Temp_objects (db fr') !! TEXT_LOGIC_NAME (Logic.pk (self fr'))
      = Some (join " " text_list).
Proof.
  intros Himpl Hseq Hscan Hlen.
  destruct (prep_text_run MAX_MEDIA_COUNT fr _ Himpl Hscan)
    as (fr' & Hrun & Hlist & _ & Htemp & _ & Hpk & Himpl' & _).
  exists fr'. split; [done|]. split; [congruence|]. split.
  - rewrite Hlist. unfold text_selection.
    rewrite bool_decide_eq_false_2 by done.
    by rewrite take_ge by (rewrite length_fmap, length_seq; lia).
  - by rewrite Htemp, Hpk, lookup_insert_eq.
Qed.

End TextSequential.

(** The accessors never reach [Http404]: a record or a [Temp] entry that
    is missing shows as the [DoesNotExist] of [objects.get]. *)
Lemma media_get_content_not_Http404 trial seq w :
  fst (media_get_content trial seq w) ≠ Raise Http404.
Proof.
  unfold media_get_content, Media_objects_get.
  case_bool_decide; [done|].
  cbv [mbind M_bind or_raise mret M_ret raise gets truth].
  destruct (getitem _ _) as [key|]; [|done].
  destruct (int key) as [n|]; [|done].
  by destruct (List.find _ _).
Qed.

Lemma text_get_content_not_Http404 trial seq w :
  fst (text_get_content trial seq w) ≠ Raise Http404.
Proof.
  unfold text_get_content, Temp_objects_get.
  case_bool_decide; [done|].
  cbv [mbind M_bind or_raise mret M_ret raise gets].
  destruct (Temp_objects w !! _) as [content|]; [|done]. simpl.
  destruct (getitem _ _) as [key|]; [|done].
  destruct (int key) as [n|]; [|done].
  by destruct (getitem _ n).
Qed.

(** ** Where the code departs from the specification *)

(** C7. A record deleted after [prep], or a missing [Temp] entry, makes
    [get_content] raise [DoesNotExist]; [Http404] is raised by neither
    accessor, whatever the database holds. *)
Theorem get_content_missing_record :
  (∀ trial seq w, fst (media_get_content trial seq w) ≠ Raise Http404)
  ∧ (∀ trial seq w, fst (text_get_content trial seq w) ≠ Raise Http404)
  ∧ (let fr' := snd (prep 5 Fixture.media_frame) in
     Logic.media_list (self fr') = "1"
     ∧ get_content (Trial.mk (self fr')) 0 (Fixture.purge (db fr'))
       = (Raise DoesNotExist, Fixture.purge (db fr')))
  ∧ (let fr' := snd (prep 5 Fixture.text_frame) in
     Logic.media_list (self fr') = "0 1 2"
     ∧ get_content (Trial.mk (self fr')) 0 (Fixture.purge (db fr'))
       = (Raise DoesNotExist, Fixture.purge (db fr'))).
Proof.
  split; [apply media_get_content_not_Http404|].
  split; [apply text_get_content_not_Http404|].
  split; by vm_compute.
Qed.

(** C8. In text mode the tag filter "*" is an ordinary tag: under the
    filter ["*"] the scan reads exactly the text records that carry the
    tag "*" themselves.  A text record tagged "a" is not read, and [prep]
    stores an empty selection, whereas the media selector accepts a
    picture tagged "a" under the same filter. *)
Theorem text_prep_wildcard (MAX_MEDIA_COUNT : nat) :
  let record := Media.mk 1 "txt" "a" (Fixture.file "x") in
  let fr := mkFrame (Fixture.logic "text" "*" "*" "sequential")
                    (Fixture.world [record]) in
  (∀ media, text_accepts (split "*") media = true ↔
            Media.ext media = "txt" ∧ "*" ∈ split (Media.tag media))
  ∧ text_accepts (split "*") record = false
  ∧ accepts (split "*") (split "*") (Media.mk 1 "jpg" "a" (Fixture.file ""))
    = true
  ∧ ∃ fr',
      prep MAX_MEDIA_COUNT fr = (Return (), fr')
      ∧ Logic.media_list (self fr') = ""
      ∧ Logic.media_count (self fr') = 0
      ∧ get_content (Trial.mk (self fr')) 0 (db fr')
        = (Return no_data, db fr').
Proof.
  intros record fr. split.
  { intros media. unfold text_accepts.
    rewrite andb_true_iff, bool_decide_eq_true, tag_in_spec.
    unfold tags_intersect. change (split "*") with ["*"].
    split; intros [Htxt Htag]; (split; [done|]).
    - destruct Htag as (t & Ht & ->%list_elem_of_singleton). done.
    - exists "*". split; [done | by left]. }
  split; [by vm_compute|]. split; [by vm_compute|].
  destruct (prep_text_run MAX_MEDIA_COUNT fr [] eq_refl)
    as (fr' & Hrun & Hlist & Hcount & _ & _ & _ & Himpl & _);
    [by vm_compute|].
  change (text_selection MAX_MEDIA_COUNT fr []) with (@nil Z) in *.
  exists fr'. repeat split; try done.
  unfold get_content, text_get_content. cbn [Trial.logic].
  by rewrite Himpl, Hlist.
Qed.

(** C9. A text file with an empty line: the three lines a, (empty), b give
    the index list "0 1 2" and the [Temp] content "a  b", which splits
    into two tokens only, so that [get_content] with [seq = 2] raises
    [IndexError]. *)
Theorem text_get_content_out_of_range (n : nat) :
  let fr := mkFrame (Fixture.logic "text" "*" "a" "sequential")
                    (Fixture.world Fixture.spaced) in
  ∃ fr',
    prep (3 + n) fr = (Return (), fr')
    ∧ Logic.media_list (self fr') = "0 1 2"
    ∧ Temp_objects (db fr') !! TEXT_LOGIC_NAME (Logic.pk (self fr'))
      = Some "a  b"
    ∧ split "a  b" = ["a"; "b"]
    ∧ get_content (Trial.mk (self fr')) 2 (db fr')
      = (Raise IndexError, db fr').
Proof.
  intros fr.
  destruct (prep_text_sequential (3 + n) fr ["a"; ""; "b"])
    as (fr' & Hrun & Himpl & Hlist & Hentry);
    [done | by vm_compute | by vm_compute | simpl; lia |].
  change (join " " (str <$> (Z.of_nat <$> seq 0 (length ["a"; ""; "b"]))))
    with "0 1 2" in Hlist.
  change (join " " ["a"; ""; "b"]) with "a  b" in Hentry.
  exists fr'. repeat split; try done.
  unfold get_content, text_get_content. cbn [Trial.logic].
  rewrite Himpl, Hlist.
  change (bool_decide ("text" = "media")) with false.
  change (bool_decide ("text" = "text")) with true.
  change (split "0 1 2") with ["0"; "1"; "2"].
  change (bool_decide (length ["0"; "1"; "2"] = 0%nat)) with false.
  cbv [mbind M_bind Temp_objects_get gets]. rewrite Hentry.
  by vm_compute.
Qed.

(** ** Counterexamples *)

(** C1 as stated fails whatever the value of [MAX_MEDIA_COUNT]: of
    [MAX_MEDIA_COUNT + 1] pictures that all satisfy the three conditions,
    one is left out. *)
Lemma media_prep_selects_not_all :
  ¬ ∃ MAX_MEDIA_COUNT : nat, ∀ (fr fr' : Frame) (media : Media.t),
      Logic.implement (self fr) = "media" →
      NoDup (Media.id <$> Media_objects (db fr)) →
      prep MAX_MEDIA_COUNT fr = (Return (), fr') →
      media ∈ Media_objects (db fr) →
      (str (Media.id media) ∈ split (Logic.media_list (self fr'))
       ↔ eligible (split (Logic.media_ext (self fr)))
                  (split (Logic.media_tag (self fr))) media).
Proof.
  intros (MAX & Hclaim).
  set (catalog := Fixture.crowd "jpg" (S MAX)).
  set (fr := mkFrame (Fixture.logic "media" "*" "*" "sequential")
                     (Fixture.world catalog)).
  destruct (prep_media_run MAX fr eq_refl) as (fr' & Hrun & Hlist & _).
  assert (NoDup (Media.id <$> catalog)) as Hnodup.
  { unfold catalog, Fixture.crowd. rewrite <-list_fmap_compose.
    apply NoDup_fmap_2; [|apply NoDup_seq].
    intros i j Hij. simpl in Hij. lia. }
  assert (length catalog = S MAX) as Hsize.
  { unfold catalog, Fixture.crowd. by rewrite length_fmap, length_seq. }
  assert (str <$> (Media.id <$> catalog) ⊆+ str <$> media_selection MAX fr)
    as Hsub.
  { apply NoDup_submseteq; [by apply (NoDup_fmap_2 str)|].
    intros token (i & -> & (media & -> & Hin)%list_elem_of_fmap)
      %list_elem_of_fmap.
    rewrite <-split_join_str, <-Hlist.
    apply (Hclaim fr fr' media); [done..|].
    apply list_elem_of_fmap in Hin as (j & -> & _).
    split; [done|]. split; left; change (split "*") with ["*"]; left. }
  apply submseteq_length in Hsub.
  rewrite !length_fmap, Hsize in Hsub.
  rewrite media_selection_Permutation, length_take in Hsub. lia.
Qed.

(** C4 as stated fails for every positive [MAX_MEDIA_COUNT]: text records
    match the extension filter "*" and the tag filter "*", and none of them
    is selected. *)
Lemma media_prep_cap_counts_txt :
  ¬ ∃ MAX_MEDIA_COUNT : nat, (0 < MAX_MEDIA_COUNT)%nat ∧
      ∀ (fr fr' : Frame),
        Logic.implement (self fr) = "media" →
        prep MAX_MEDIA_COUNT fr = (Return (), fr') →
        (MAX_MEDIA_COUNT
         < length (filter (λ m, passes_filters
                                  (split (Logic.media_ext (self fr)))
                                  (split (Logic.media_tag (self fr))) m)
                          (Media_objects (db fr))))%nat →
        length (split (Logic.media_list (self fr'))) = MAX_MEDIA_COUNT.
Proof.
  intros (MAX & Hpos & Hclaim).
  set (catalog := Fixture.crowd "txt" (S MAX)).
  set (fr := mkFrame (Fixture.logic "media" "*" "*" "sequential")
                     (Fixture.world catalog)).
  destruct (prep_media_run MAX fr eq_refl) as (fr' & Hrun & Hlist & _).
  assert (length (split (Logic.media_list (self fr'))) = MAX) as Hlen.
  { apply (Hclaim fr fr' eq_refl Hrun). simpl.
    change (split "*") with ["*"].
    rewrite filter_Forall by (by apply Forall_forall).
    unfold catalog, Fixture.crowd. rewrite length_fmap, length_seq. lia. }
  assert (ranked fr = []) as Hnone.
  { destruct (ranked fr) as [|m l] eqn:Hranked; [done|].
    assert (m ∈ ranked fr) as Hm by (rewrite Hranked; left).
    apply elem_of_ranked in Hm as [Hin [Hext _]].
    by apply list_elem_of_fmap in Hin as (j & -> & _). }
  rewrite Hlist, split_join_str, length_fmap in Hlen.
  rewrite media_selection_Permutation, Hnone in Hlen.
  rewrite fmap_nil, take_nil in Hlen. simpl in Hlen. lia.
Qed.

(** With a bound of 1 and the two pictures 1 and 2, both tagged "a" and
    both passing the filters, the scan in descending id order keeps
    picture 2 and stops at picture 1. *)
Example media_prep_bound_one :
  let fr' := snd (prep 1 Fixture.crowded_frame) in
  prep 1 Fixture.crowded_frame = (Return (), fr')
  ∧ Logic.media_list (self fr') = "2"
  ∧ Logic.media_count (self fr') = 1
  ∧ accepts ["*"] ["*"] (Media.mk 1 "jpg" "a" (Fixture.file "")) = true.
Proof. by vm_compute. Qed.

(** With a bound of 1 and two text records under the filters "*" and "*",
    nothing is selected. *)
Example media_prep_text_records :
  let fr := mkFrame (Fixture.logic "media" "*" "*" "sequential")
                    (Fixture.world (Fixture.crowd "txt" 2)) in
  let fr' := snd (prep 1 fr) in
  prep 1 fr = (Return (), fr')
  ∧ Logic.media_list (self fr') = ""
  ∧ Logic.media_count (self fr') = 0
  ∧ length (filter (λ m, passes_filters ["*"] ["*"] m)
                   (Media_objects (db fr))) = 2%nat.
Proof. by vm_compute. Qed.

(** ** The properties on concrete databases *)

Lemma prep_media_count_witness :
  let fr' := snd (prep 5 Fixture.media_frame) in
  prep 5 Fixture.media_frame = (Return (), fr')
  ∧ saved fr'
  ∧ Logic.media_count (self fr')
    = Z.of_nat (length (split (Logic.media_list (self fr')))).
Proof.
  intros fr'. split; [by vm_compute|].
  apply (prep_media_count 5 Fixture.media_frame fr'). by vm_compute.
Defined.

Lemma unknown_implement_not_found_witness :
  Logic.implement Fixture.unknown_logic ≠ "media"
  ∧ (∃ fr',
       prep 5 (mkFrame Fixture.unknown_logic (Fixture.world Fixture.pictures))
       = (Raise Http404, fr')
       ∧ Logic_objects (db fr') !! 7 = Some (self fr')
       ∧ Logic.media_list (self fr') = "")
  ∧ get_content (Trial.mk Fixture.unknown_logic) 0
                (Fixture.world Fixture.pictures)
    = (Raise Http404, Fixture.world Fixture.pictures).
Proof.
  assert (Logic.implement Fixture.unknown_logic ≠ "media") as Hm by done.
  assert (Logic.implement Fixture.unknown_logic ≠ "text") as Ht by done.
  assert (Logic.implement Fixture.unknown_logic ≠ "blank") as Hb by done.
  destruct (unknown_implement_not_found 5 Fixture.unknown_logic Hm Ht Hb)
    as [Hprep Hget].
  split; [done|]. split; [|apply Hget].
  destruct (Hprep (Fixture.world Fixture.pictures))
    as (fr' & Hrun & Hlist & _ & _ & Hrow & _).
  by exists fr'.
Defined.

Lemma media_get_content_wraparound_witness :
  let w := Fixture.world Fixture.pictures in
  Logic.implement (Trial.logic Fixture.trial) = "media"
  ∧ get_content Fixture.trial 2 w = get_content Fixture.trial 0 w
  ∧ get_content Fixture.trial (2 + 1) w = get_content Fixture.trial 1 w.
Proof.
  intros w. split; [done|].
  apply (media_get_content_wraparound Fixture.trial w 1); [done|done|lia].
Defined.

Lemma seq_index_in_range_witness :
  split (Logic.media_list (Trial.logic Fixture.trial)) ≠ []
  ∧ 0 ≤ (-1) `mod` 2 < 2
  ∧ ∃ key, getitem (split "1 3") ((-1) `mod` 2) = Some key.
Proof.
  assert (split (Logic.media_list (Trial.logic Fixture.trial)) ≠ [])
    as Hne by done.
  destruct (seq_index_in_range Fixture.trial (-1)
              (Fixture.world Fixture.pictures) Hne)
    as (Hrange & key & Hkey & _).
  split; [done|]. split; [done|]. by exists key.
Defined.

Lemma media_prep_selects_witness :
  Logic.implement (self Fixture.media_frame) = "media"
  ∧ ∃ fr' ids,
      prep 5 Fixture.media_frame = (Return (), fr')
      ∧ split (Logic.media_list (self fr')) = str <$> ids
      ∧ ids = [1]
      ∧ Logic.media_list (self fr') = "1"
      ∧ Logic.media_count (self fr') = 1
      ∧ (1 ∈ ids ↔ eligible ["*"] ["a"]
                     (Media.mk 1 "jpg" "a b" (Fixture.file ""))).
Proof.
  split; [done|].
  destruct (media_prep_selects 5 Fixture.media_frame eq_refl)
    as (fr' & ids & Hrun & Htokens & _ & _ & _ & _ & Hiff & Hexample).
  exists fr', ids. split; [done|]. split; [done|].
  destruct (Hexample ltac:(lia) eq_refl eq_refl _ _ _ eq_refl)
    as (Hids & Hlist & Hcount).
  split; [done|]. split; [done|]. split; [done|].
  apply (Hiff ltac:(vm_compute; lia)
              ltac:(by apply (bool_decide_unpack _); vm_compute)
              (Media.mk 1 "jpg" "a b" (Fixture.file ""))).
  by left.
Defined.

Lemma media_prep_cap_witness :
  (1 < length (filter (λ m, accepts ["*"] ["*"] m)
                      (Media_objects (db Fixture.crowded_frame))))%nat
  ∧ ∃ fr',
      prep 1 Fixture.crowded_frame = (Return (), fr')
      ∧ length (split (Logic.media_list (self fr'))) = 1%nat
      ∧ Logic.media_count (self fr') = 1.
Proof.
  assert (1 < length (filter (λ m, accepts ["*"] ["*"] m)
                        (Media_objects (db Fixture.crowded_frame))))%nat
    as Hmany by (vm_compute; lia).
  split; [done|].
  apply (media_prep_cap 1 Fixture.crowded_frame eq_refl Hmany).
Defined.

Lemma text_prep_round_trip_witness :
  let r1 := Media.mk 1 "txt" "a" (Fixture.file ("a" +:+ newline +:+ "b")) in
  let r2 := Media.mk 3 "txt" "a b" (Fixture.file ("c" +:+ newline)) in
  filter (λ m, text_accepts ["a"] m) Fixture.texts = [r1; r2]
  ∧ splitlines ("a" +:+ newline +:+ "b") = ["a"; "b"]
  ∧ splitlines ("c" +:+ newline) = ["c"]
  ∧ ∃ fr',
      prep 3 Fixture.text_frame = (Return (), fr')
      ∧ Temp_objects (db fr') !! TEXT_LOGIC_NAME (Logic.pk (self fr'))
        = Some "a b c"
      ∧ Logic.media_list (self fr') = "0 1 2"
      ∧ Logic.media_count (self fr') = 3
      ∧ saved fr'
      ∧ get_content (Trial.mk (self fr')) 1 (db fr')
        = (Return (json_dumps "txt" "b"), db fr').
Proof.
  intros r1 r2.
  assert (filter (λ m, text_accepts ["a"] m) Fixture.texts = [r1; r2])
    as Hfilter by (by vm_compute).
  assert (splitlines ("a" +:+ newline +:+ "b") = ["a"; "b"])
    as Hl1 by (by vm_compute).
  assert (splitlines ("c" +:+ newline) = ["c"]) as Hl2 by (by vm_compute).
  split; [done|]. split; [done|]. split; [done|].
  apply (text_prep_round_trip 3 Fixture.text_frame r1 r2 _ _
           ltac:(lia) eq_refl ltac:(done) Hfilter eq_refl Hl1 eq_refl Hl2).
Defined.

(** * Further properties of the module *)

(** As [run], and the projections of the pair that a computation
    returns. *)
Ltac run_pair := run; cbv [fst snd]; run.

(** ** What [get_content] does in every mode *)

(** X1. [get_content] only reads: whatever the mode, the sequence number
    and the outcome, the database it returns is the one it was given. *)
Theorem get_content_read_only (trial : Trial.t) (seq : Z) (w : World) :
  snd (get_content trial seq w) = w.
Proof.
  unfold get_content. repeat case_bool_decide; try done.
  - unfold media_get_content, Media_objects_get.
    case_bool_decide; [done|].
    cbv [mbind M_bind or_raise mret M_ret raise gets truth].
    destruct (getitem _ _) as [key|]; [|done].
    destruct (int key) as [n|]; [|done].
    by destruct (List.find _ _).
  - unfold text_get_content, Temp_objects_get.
    case_bool_decide; [done|].
    cbv [mbind M_bind or_raise mret M_ret raise gets].
    destruct (Temp_objects w !! _) as [content|]; [|done]. simpl.
    destruct (getitem _ _) as [key|]; [|done].
    destruct (int key) as [n|]; [|done].
    by destruct (getitem _ n).
Qed.

(** X2. [get_content] raises [Http404] exactly when [implement] is none of
    "media", "text" and "blank". *)
Theorem get_content_Http404_iff (trial : Trial.t) (seq : Z) (w : World) :
  fst (get_content trial seq w) = Raise Http404
  ↔ ¬ known (Logic.implement (Trial.logic trial)).
Proof.
  unfold get_content, known. repeat case_bool_decide.
  - split; [|tauto]. intros Hraise.
    by apply media_get_content_not_Http404 in Hraise.
  - split; [|tauto]. intros Hraise.
    by apply text_get_content_not_Http404 in Hraise.
  - split; [done|tauto].
  - split; [tauto|done].
Qed.

(** X3. In every mode [get_content] depends on [seq] only through
    [seq mod count], where [count] is the number of tokens of
    [media_list]: adding any multiple of [count], positive or negative,
    to [seq] changes nothing. *)
Theorem get_content_periodic (trial : Trial.t) (seq m : Z) (w : World) :
  let count :=
    Z.of_nat (length (split (Logic.media_list (Trial.logic trial)))) in
  get_content trial (seq + m * count) w = get_content trial seq w.
Proof.
  intros count. unfold get_content, media_get_content, text_get_content,
    blank_get_content.
  fold count. by rewrite Z_mod_plus_full.
Qed.

(** ** The frame that [prep] leaves *)

Lemma log_two (today : nat → string) (clock : nat) (a b : string) :
  ("" +:+ today clock +:+ " " +:+ a +:+ newline)
  +:+ today (S clock) +:+ " " +:+ b +:+ newline
  = log_lines today clock [a; b].
Proof.
  change ("" +:+ today clock +:+ " " +:+ a +:+ newline)
    with (today clock +:+ " " +:+ a +:+ newline).
  cbn [log_lines]. by rewrite !append_assoc, append_nil_r.
Qed.

Section Frames.
Variable MAX_MEDIA_COUNT : nat.

Lemma prep_media_final (fr : Frame) :
  Logic.implement (self fr) = "media" →
  ∃ fr', prep MAX_MEDIA_COUNT fr = (Return (), fr')
    ∧ prepared_as fr fr'
        (prepared fr "media"
           (join " " (split (Logic.media_ext (self fr))))
           (join " " (split (Logic.media_tag (self fr))))
           (join " " (str <$> media_selection MAX_MEDIA_COUNT fr))
           (Z.of_nat (length (media_selection MAX_MEDIA_COUNT fr))))
        (Temp_objects (db fr))
        (drawn_after fr
           (length (media_scan MAX_MEDIA_COUNT
                      (split (Logic.media_ext (self fr)))
                      (split (Logic.media_tag (self fr)))
                      (reverse (order_by_id (Media_objects (db fr)))) []))).
Proof.
  intros Himpl. open_frame fr. simpl in Himpl. subst implement.
  unfold prepared_as, prepared, media_selection, drawn_after. run.
  change (bool_decide ("media" = "media")) with true. run.
  repeat (case_bool_decide; try done; run);
    (eexists; split; [reflexivity|]); run;
    rewrite log_two;
    (repeat split; [apply lookup_insert_eq|]);
    intros k Hk; by rewrite !lookup_insert_ne.
Qed.

Lemma prep_text_final (fr : Frame) (text_list : list string) :
  Logic.implement (self fr) = "text" →
  text_collect (split (Logic.media_tag (self fr)))
               (Media_objects (db fr)) [] = Return text_list →
  ∃ fr', prep MAX_MEDIA_COUNT fr = (Return (), fr')
    ∧ prepared_as fr fr'
        (prepared fr "text"
           (Logic.media_ext (self fr))
           (join " " (split (Logic.media_tag (self fr))))
           (join " " (str <$> text_selection MAX_MEDIA_COUNT fr text_list))
           (Z.of_nat (length (text_selection MAX_MEDIA_COUNT fr text_list))))
        (<[TEXT_LOGIC_NAME (Logic.pk (self fr)) := join " " text_list]>
           (Temp_objects (db fr)))
        (drawn_after fr (length text_list)).
Proof.
  intros Himpl Hscan. rewrite text_selection_length.
  open_frame fr. simpl in *. subst implement.
  unfold prepared_as, prepared, text_selection, drawn_after. run.
  change (bool_decide ("text" = "media")) with false.
  change (bool_decide ("text" = "text")) with true. run.
  rewrite text_scan_run, Hscan. run.
  repeat (case_bool_decide; try done; run);
    destruct (temps !! TEXT_LOGIC_NAME pk); run;
    rewrite ?decide_True by done; run;
    (eexists; split; [reflexivity|]); run;
    rewrite log_two, ?shuffle_length, length_fmap, length_seq;
    (repeat split; [apply lookup_insert_eq|]);
    intros k Hk; by rewrite !lookup_insert_ne.
Qed.

Lemma prep_blank_final (fr : Frame) :
  Logic.implement (self fr) = "blank" →
  ∃ fr', prep MAX_MEDIA_COUNT fr = (Return (), fr')
    ∧ prepared_as fr fr'
        (prepared fr "blank" (Logic.media_ext (self fr))
                  (Logic.media_tag (self fr)) "" 0)
        (Temp_objects (db fr)) (drawn (db fr)).
Proof.
  intros Himpl. open_frame fr. simpl in Himpl. subst implement.
  unfold prepared_as, prepared. run.
  change (bool_decide ("blank" = "media")) with false.
  change (bool_decide ("blank" = "text")) with false.
  change (bool_decide ("blank" = "blank")) with true. run.
  (eexists; split; [reflexivity|]); run. rewrite log_two.
  (repeat split; [apply lookup_insert_eq|]).
  intros k Hk; by rewrite !lookup_insert_ne.
Qed.

(** A text-mode [prep] whose scan raises: the instance has been reset,
    logged and saved, and its tag filter normalised afterwards. *)
Lemma prep_text_raise (fr : Frame) (e : exn) :
  Logic.implement (self fr) = "text" →
  text_collect (split (Logic.media_tag (self fr)))
               (Media_objects (db fr)) [] = Raise e →
  let row :=
    Logic.set_state
      (log_lines (today (db fr)) (clock (db fr)) ["text_prep started."])
      (reset (self fr)) in
  prep MAX_MEDIA_COUNT fr
  = (Raise e,
     mkFrame
       (Logic.set_media_tag (join " " (split (Logic.media_tag (self fr))))
          row)
       (set_clock (S (clock (db fr)))
          (set_Logic_objects
             (<[Logic.pk (self fr) := row]>
                (<[Logic.pk (self fr) := reset (self fr)]>
                   (Logic_objects (db fr))))
             (db fr)))).
Proof.
  intros Himpl Hscan. open_frame fr. simpl in *. subst implement.
  unfold reset. run.
  change (bool_decide ("text" = "media")) with false.
  change (bool_decide ("text" = "text")) with true. run.
  rewrite text_scan_run, Hscan. run. cbn [log_lines].
  by rewrite append_nil_r.
Qed.

End Frames.

(** ** Tokens *)

Lemma split_go_tokens (cur s : string) :
  all_chars (λ c, negb (isspace c)) cur = true →
  Forall (λ t, is_token t = true) (split_go cur s).
Proof.
  revert cur. induction s as [|c s IH]; intros cur Hcur; simpl.
  - destruct cur as [|c' cur']; [constructor|].
    by repeat constructor.
  - destruct (isspace c) eqn:Hc.
    + apply Forall_app. split; [|by apply IH].
      destruct cur as [|c' cur']; [constructor|].
      by repeat constructor.
    + apply IH. rewrite all_chars_app, Hcur. simpl. by rewrite Hc.
Qed.

(** What [split] returns are tokens. *)
Lemma split_tokens (s : string) : Forall (λ t, is_token t = true) (split s).
Proof. by apply split_go_tokens. Qed.

(** Normalising a filter string keeps the filter list, and normalising
    twice is normalising once. *)
Lemma split_normalised (s : string) : split (join " " (split s)) = split s.
Proof. apply split_join, split_tokens. Qed.

(** ** The scan of the text selector *)

Global Instance unreadable_dec tag_list media :
  Decision (unreadable tag_list media).
Proof. unfold unreadable. apply _. Defined.

Lemma text_lines_cons tag_list media rest :
  text_lines tag_list (media :: rest)
  = (if text_accepts tag_list media
     then splitlines (default "" (FieldFile.text (Media.content media)))
     else [])
    ++ text_lines tag_list rest.
Proof.
  unfold text_lines. destruct (text_accepts tag_list media) eqn:Hacc.
  - by rewrite filter_cons_True by (by apply Is_true_true).
  - by rewrite filter_cons_False by (by apply Is_true_false).
Qed.

(** The scan returns the lines of all the records it reads when each of
    them can be decoded ... *)
Lemma text_collect_readable tag_list media_all text_list :
  Forall (λ m, ¬ unreadable tag_list m) media_all →
  text_collect tag_list media_all text_list
  = Return (text_list ++ text_lines tag_list media_all).
Proof.
  intros Hall. revert text_list.
  induction Hall as [|media rest Hm _ IH]; intros text_list.
  - simpl. by rewrite app_nil_r.
  - rewrite text_lines_cons. simpl.
    destruct (text_accepts tag_list media) eqn:Hacc; [|apply IH].
    destruct (FieldFile.text (Media.content media)) as [text|] eqn:Htext.
    + rewrite IH. simpl. by rewrite app_assoc.
    + destruct Hm. split; [by apply Is_true_true | done].
Qed.

(** ... and raises as soon as one of them cannot. *)
Lemma text_collect_unreadable tag_list media_all text_list :
  Exists (unreadable tag_list) media_all →
  text_collect tag_list media_all text_list = Raise ContentError.
Proof.
  intros Hex. revert text_list.
  induction Hex as [media rest [Hacc Htext]|media rest _ IH];
    intros text_list; simpl.
  - apply Is_true_true in Hacc. by rewrite Hacc, Htext.
  - destruct (text_accepts tag_list media); [|apply IH].
    by destruct (FieldFile.text (Media.content media)).
Qed.

Lemma text_collect_cases tag_list media_all :
  (Forall (λ m, ¬ unreadable tag_list m) media_all
   ∧ text_collect tag_list media_all []
     = Return (text_lines tag_list media_all))
  ∨ (Exists (unreadable tag_list) media_all
     ∧ text_collect tag_list media_all [] = Raise ContentError).
Proof.
  destruct (decide (Exists (unreadable tag_list) media_all)) as [Hex|Hall].
  - right. split; [done|]. by apply text_collect_unreadable.
  - left. apply not_Exists_Forall in Hall; [|apply _].
    split; [done|]. by rewrite text_collect_readable.
Qed.

(** ** What [prep] leaves behind *)

Section Prepared.
Variable MAX_MEDIA_COUNT : nat.

(** The three ways in which [prep] succeeds. *)
Lemma prep_success_cases (fr fr' : Frame) :
  prep MAX_MEDIA_COUNT fr = (Return (), fr') →
  (Logic.implement (self fr) = "media"
   ∧ prepared_as fr fr'
       (prepared fr "media"
          (join " " (split (Logic.media_ext (self fr))))
          (join " " (split (Logic.media_tag (self fr))))
          (join " " (str <$> media_selection MAX_MEDIA_COUNT fr))
          (Z.of_nat (length (media_selection MAX_MEDIA_COUNT fr))))
       (Temp_objects (db fr))
       (drawn_after fr
          (length (media_scan MAX_MEDIA_COUNT
                     (split (Logic.media_ext (self fr)))
                     (split (Logic.media_tag (self fr)))
                     (reverse (order_by_id (Media_objects (db fr)))) []))))
  ∨ (Logic.implement (self fr) = "text"
     ∧ Forall (λ m, ¬ unreadable (split (Logic.media_tag (self fr))) m)
              (Media_objects (db fr))
     ∧ let text_list := text_lines (split (Logic.media_tag (self fr)))
                                   (Media_objects (db fr)) in
       prepared_as fr fr'
         (prepared fr "text"
            (Logic.media_ext (self fr))
            (join " " (split (Logic.media_tag (self fr))))
            (join " " (str <$> text_selection MAX_MEDIA_COUNT fr text_list))
            (Z.of_nat
               (length (text_selection MAX_MEDIA_COUNT fr text_list))))
         (<[TEXT_LOGIC_NAME (Logic.pk (self fr)) := join " " text_list]>
            (Temp_objects (db fr)))
         (drawn_after fr (length text_list)))
  ∨ (Logic.implement (self fr) = "blank"
     ∧ prepared_as fr fr'
         (prepared fr "blank" (Logic.media_ext (self fr))
                   (Logic.media_tag (self fr)) "" 0)
         (Temp_objects (db fr)) (drawn (db fr))).
Proof.
  intros Hrun.
  destruct (decide (Logic.implement (self fr) = "media")) as [Hm|Hm].
  { left. split; [done|].
    destruct (prep_media_final MAX_MEDIA_COUNT fr Hm) as (fr2 & Hrun2 & H).
    rewrite Hrun in Hrun2. by injection Hrun2 as <-. }
  destruct (decide (Logic.implement (self fr) = "text")) as [Ht|Ht].
  { right. left. split; [done|].
    destruct (text_collect_cases (split (Logic.media_tag (self fr)))
                (Media_objects (db fr))) as [[Hall Hscan]|[_ Hscan]].
    - split; [done|].
      destruct (prep_text_final MAX_MEDIA_COUNT fr _ Ht Hscan)
        as (fr2 & Hrun2 & H).
      rewrite Hrun in Hrun2. by injection Hrun2 as <-.
    - by rewrite (prep_text_raise MAX_MEDIA_COUNT fr _ Ht Hscan) in Hrun. }
  destruct (decide (Logic.implement (self fr) = "blank")) as [Hb|Hb].
  { right. right. split; [done|].
    destruct (prep_blank_final MAX_MEDIA_COUNT fr Hb) as (fr2 & Hrun2 & H).
    rewrite Hrun in Hrun2. by injection Hrun2 as <-. }
  by rewrite prep_unknown_run in Hrun.
Qed.

(** X4. The outcome of [prep] is decided by [implement] and, in text mode,
    by the files of the records that the scan reads: media and blank mode
    always succeed, text mode fails with the error of reading a file when
    one of those files cannot be decoded and succeeds when there is none,
    and every other [implement] raises [Http404]. *)
Theorem prep_outcome (fr : Frame) :
  fst (prep MAX_MEDIA_COUNT fr)
  = if decide (Logic.implement (self fr) = "media") then Return ()
    else if decide (Logic.implement (self fr) = "text") then
      if decide (Exists (unreadable (split (Logic.media_tag (self fr))))
                        (Media_objects (db fr)))
      then Raise ContentError else Return ()
    else if decide (Logic.implement (self fr) = "blank") then Return ()
    else Raise Http404.
Proof.
  destruct (decide (Logic.implement (self fr) = "media")) as [Hm|Hm].
  { destruct (prep_media_final MAX_MEDIA_COUNT fr Hm) as (fr' & Hrun & _).
    by rewrite Hrun. }
  destruct (decide (Logic.implement (self fr) = "text")) as [Ht|Ht].
  { destruct (text_collect_cases (split (Logic.media_tag (self fr)))
                (Media_objects (db fr))) as [[Hall Hscan]|[Hex Hscan]].
    - rewrite decide_False by (by apply Forall_not_Exists).
      destruct (prep_text_final MAX_MEDIA_COUNT fr _ Ht Hscan)
        as (fr' & Hrun & _).
      by rewrite Hrun.
    - rewrite decide_True by done.
      by rewrite (prep_text_raise MAX_MEDIA_COUNT fr _ Ht Hscan). }
  destruct (decide (Logic.implement (self fr) = "blank")) as [Hb|Hb].
  { destruct (prep_blank_final MAX_MEDIA_COUNT fr Hb) as (fr' & Hrun & _).
    by rewrite Hrun. }
  by rewrite prep_unknown_run.
Qed.

End Prepared.

Section AfterPrep.
Variable MAX_MEDIA_COUNT : nat.

Ltac prepared_cases Hrun :=
  apply prep_success_cases in Hrun
    as [[Himpl Hp]|[(Himpl & Hall & Hp)|[Himpl Hp]]];
  [ | cbv zeta in Hp | ];
  destruct Hp as (Hself & Hrow & Hrows & Hmedia & Htemp & Htoday & Hclock
                  & Hrandom & Hdrawn).

(** X5. A successful [prep] discards the old log: the instance it leaves
    has a log of exactly two lines, the start and the finish message of
    the selector named by [implement], stamped with two successive
    readings of the clock; that instance is the saved row. *)
Theorem prep_state_log (fr fr' : Frame) :
  prep MAX_MEDIA_COUNT fr = (Return (), fr') →
  Logic.state (self fr')
  = log_lines (today (db fr)) (clock (db fr))
      [Logic.implement (self fr) +:+ "_prep started.";
       Logic.implement (self fr) +:+ "_prep finished."]
  ∧ clock (db fr') = S (S (clock (db fr)))
  ∧ saved fr'.
Proof.
  intros Hrun. unfold saved.
  prepared_cases Hrun; rewrite Hself at 1 2; simpl; rewrite Himpl;
    (split; [done|]); (split; [done|]); by rewrite Hrow, Hself.
Qed.

(** X6. The count that a successful [prep] stores never exceeds
    [MAX_MEDIA_COUNT], in any mode and with or without shuffle, and
    neither does the number of tokens of the stored list. *)
Theorem prep_count_bound (fr fr' : Frame) :
  prep MAX_MEDIA_COUNT fr = (Return (), fr') →
  0 ≤ Logic.media_count (self fr') ≤ Z.of_nat MAX_MEDIA_COUNT
  ∧ (length (split (Logic.media_list (self fr'))) ≤ MAX_MEDIA_COUNT)%nat.
Proof.
  intros Hrun.
  prepared_cases Hrun; rewrite Hself; simpl.
  - rewrite split_join_str, length_fmap.
    rewrite media_selection_Permutation, length_take. lia.
  - rewrite split_join_str, length_fmap, text_selection_length. lia.
  - change (split "") with (@nil string). simpl. lia.
Qed.

(** X7. The filters after a successful [prep]: media mode rewrites both
    filter strings as their tokens joined by single spaces, text mode
    rewrites the tag filter only and blank mode neither; in every mode the
    filter lists read from the new strings are the lists read from the old
    ones. *)
Theorem prep_normalises_filters (fr fr' : Frame) :
  prep MAX_MEDIA_COUNT fr = (Return (), fr') →
  Logic.media_ext (self fr')
  = (if decide (Logic.implement (self fr) = "media")
     then join " " (split (Logic.media_ext (self fr)))
     else Logic.media_ext (self fr))
  ∧ Logic.media_tag (self fr')
    = (if decide (Logic.implement (self fr) = "blank")
       then Logic.media_tag (self fr)
       else join " " (split (Logic.media_tag (self fr))))
  ∧ split (Logic.media_ext (self fr')) = split (Logic.media_ext (self fr))
  ∧ split (Logic.media_tag (self fr')) = split (Logic.media_tag (self fr)).
Proof.
  intros Hrun.
  prepared_cases Hrun; rewrite Hself, Himpl; simpl;
    by rewrite ?split_normalised.
Qed.

(** X8. Whatever its outcome, [prep] leaves the catalog, the rows of the
    other [Logic]s, the [Temp] entries of the other names and the key,
    the discriminator and the order of its own [Logic] as they were; and
    outside text mode it leaves the whole [Temp] table as it was. *)
Theorem prep_leaves_untouched (fr : Frame) :
  let fr' := snd (prep MAX_MEDIA_COUNT fr) in
  Media_objects (db fr') = Media_objects (db fr)
  ∧ Logic.pk (self fr') = Logic.pk (self fr)
  ∧ Logic.implement (self fr') = Logic.implement (self fr)
  ∧ Logic.media_order (self fr') = Logic.media_order (self fr)
  ∧ (∀ k, k ≠ Logic.pk (self fr) →
          Logic_objects (db fr') !! k = Logic_objects (db fr) !! k)
  ∧ (∀ name, name ≠ TEXT_LOGIC_NAME (Logic.pk (self fr)) →
             Temp_objects (db fr') !! name = Temp_objects (db fr) !! name)
  ∧ (Logic.implement (self fr) ≠ "text" →
     Temp_objects (db fr') = Temp_objects (db fr)).
Proof.
  intros fr'. subst fr'.
  destruct (prep MAX_MEDIA_COUNT fr) as [[[]|e] fr'] eqn:Hrun.
  - simpl. prepared_cases Hrun; rewrite Hself, Htemp; simpl;
      repeat split; try done.
    intros name Hname. by rewrite lookup_insert_ne.
  - simpl.
    destruct (decide (Logic.implement (self fr) = "media")) as [Hm|Hm].
    { destruct (prep_media_final MAX_MEDIA_COUNT fr Hm) as (fr2 & Hrun2 & _).
      by rewrite Hrun in Hrun2. }
    destruct (decide (Logic.implement (self fr) = "text")) as [Ht|Ht].
    { destruct (text_collect_cases (split (Logic.media_tag (self fr)))
                  (Media_objects (db fr))) as [[Hall Hscan]|[Hex Hscan]].
      - destruct (prep_text_final MAX_MEDIA_COUNT fr _ Ht Hscan)
          as (fr2 & Hrun2 & _).
        by rewrite Hrun in Hrun2.
      - rewrite (prep_text_raise MAX_MEDIA_COUNT fr _ Ht Hscan) in Hrun.
        injection Hrun as <- <-. simpl. repeat split; try done.
        intros k Hk. by rewrite !lookup_insert_ne. }
    destruct (decide (Logic.implement (self fr) = "blank")) as [Hb|Hb].
    { destruct (prep_blank_final MAX_MEDIA_COUNT fr Hb) as (fr2 & Hrun2 & _).
      by rewrite Hrun in Hrun2. }
    rewrite prep_unknown_run in Hrun by done.
    injection Hrun as <- <-. simpl. repeat split; try done.
    intros k Hk. by rewrite lookup_insert_ne.
Qed.

End AfterPrep.

Section Again.
Variable MAX_MEDIA_COUNT : nat.

Lemma media_scan_prepared (fr fr1 : Frame) media_list media_count :
  self fr1
  = prepared fr "media"
      (join " " (split (Logic.media_ext (self fr))))
      (join " " (split (Logic.media_tag (self fr)))) media_list media_count →
  Media_objects (db fr1) = Media_objects (db fr) →
  ranked fr1 = ranked fr.
Proof.
  intros Hself Hmedia. unfold ranked.
  by rewrite Hself, Hmedia; simpl; rewrite !split_normalised.
Qed.

Lemma text_selection_sequential (fr : Frame) (text_list : list string) :
  Logic.media_order (self fr) ≠ "shuffle" →
  text_selection MAX_MEDIA_COUNT fr text_list
  = Z.of_nat <$> seq 0 (length text_list `min` MAX_MEDIA_COUNT)%nat.
Proof.
  intros Hseq. unfold text_selection.
  rewrite bool_decide_eq_false_2 by done.
  rewrite length_fmap, length_seq, <-fmap_take. f_equal.
  rewrite take_seq. f_equal. lia.
Qed.

(** X9. Calling [prep] again on what a successful [prep] has left, with
    the catalog unchanged, succeeds again and stores the same count, the
    same filters and the same [Temp] table; without shuffle it stores the
    same list, and in media mode the same ids even with shuffle, in
    some order. *)
Theorem prep_twice (fr fr1 : Frame) :
  prep MAX_MEDIA_COUNT fr = (Return (), fr1) →
  ∃ fr2,
    prep MAX_MEDIA_COUNT fr1 = (Return (), fr2)
    ∧ Logic.media_count (self fr2) = Logic.media_count (self fr1)
    ∧ Logic.media_ext (self fr2) = Logic.media_ext (self fr1)
    ∧ Logic.media_tag (self fr2) = Logic.media_tag (self fr1)
    ∧ Temp_objects (db fr2) = Temp_objects (db fr1)
    ∧ (Logic.media_order (self fr) ≠ "shuffle" →
       Logic.media_list (self fr2) = Logic.media_list (self fr1))
    ∧ (Logic.implement (self fr) = "media" →
       split (Logic.media_list (self fr2))
       ≡ₚ split (Logic.media_list (self fr1))).
Proof.
  intros Hrun.
  apply prep_success_cases in Hrun
    as [[Himpl Hp]|[(Himpl & Hall & Hp)|[Himpl Hp]]];
    [ | cbv zeta in Hp | ];
    destruct Hp as (Hself & Hrow & Hrows & Hmedia & Htemp & Htoday & Hclock
                    & Hrandom & Hdrawn).
  - assert (Logic.implement (self fr1) = "media") as Himpl1
      by (by rewrite Hself).
    destruct (prep_media_final MAX_MEDIA_COUNT fr1 Himpl1)
      as (fr2 & Hrun2 & Hself2 & _ & _ & _ & Htemp2 & _).
    pose proof (media_scan_prepared fr fr1 _ _ Hself Hmedia) as Hranked.
    assert (media_selection MAX_MEDIA_COUNT fr1
            ≡ₚ media_selection MAX_MEDIA_COUNT fr) as Hperm
      by (by rewrite !media_selection_Permutation, Hranked).
    exists fr2. split; [done|]. rewrite Hself2, Htemp2.
    rewrite Hself at 2 4 6 8 10. simpl.
    rewrite Hself. simpl. rewrite !split_normalised.
    repeat split; try done.
    + by rewrite Hperm.
    + intros Hseq. rewrite !media_selection_sequential, Hranked; [done..|].
      by rewrite Hself.
    + intros _. by rewrite !split_join_str, Hperm.
  - assert (Logic.implement (self fr1) = "text") as Himpl1
      by (by rewrite Hself).
    assert (split (Logic.media_tag (self fr1))
            = split (Logic.media_tag (self fr))) as Htag
      by (rewrite Hself; simpl; apply split_normalised).
    assert (text_collect (split (Logic.media_tag (self fr1)))
              (Media_objects (db fr1)) []
            = Return (text_lines (split (Logic.media_tag (self fr)))
                                 (Media_objects (db fr)))) as Hscan
      by (by rewrite Htag, Hmedia, text_collect_readable).
    destruct (prep_text_final MAX_MEDIA_COUNT fr1 _ Himpl1 Hscan)
      as (fr2 & Hrun2 & Hself2 & _ & _ & _ & Htemp2 & _).
    exists fr2. split; [done|]. rewrite Hself2, Htemp2, Htemp.
    rewrite Hself at 2 4 6 8 10. simpl.
    rewrite Hself. simpl. rewrite !split_normalised, !text_selection_length.
    repeat split; try done.
    + by rewrite insert_insert_eq.
    + intros Hseq. rewrite !text_selection_sequential; [done..|].
      by rewrite Hself.
    + intros Hm. by rewrite Hm in Himpl.
  - assert (Logic.implement (self fr1) = "blank") as Himpl1
      by (by rewrite Hself).
    destruct (prep_blank_final MAX_MEDIA_COUNT fr1 Himpl1)
      as (fr2 & Hrun2 & Hself2 & _ & _ & _ & Htemp2 & _).
    exists fr2. split; [done|]. rewrite Hself2, Htemp2, Htemp.
    rewrite Hself. simpl. by repeat split.
Qed.

(** X10. When a successful [prep] has stored the count 0, [get_content]
    answers every sequence number with the payload that stands for no
    data (with an empty text in blank mode): it raises nothing, and in
    text mode it does not depend on the [Temp] table. *)
Theorem prep_nothing_selected (fr fr' : Frame) (seq : Z) (w : World) :
  prep MAX_MEDIA_COUNT fr = (Return (), fr') →
  Logic.media_count (self fr') = 0 →
  get_content (Trial.mk (self fr')) seq w
  = (Return (if decide (Logic.implement (self fr) = "blank")
             then json_dumps "txt" "" else no_data), w).
Proof.
  intros Hrun. unfold get_content, media_get_content, text_get_content.
  cbn [Trial.logic].
  apply prep_success_cases in Hrun
    as [[Himpl Hp]|[(Himpl & Hall & Hp)|[Himpl Hp]]];
    [ | cbv zeta in Hp | ];
    destruct Hp as (Hself & _); rewrite Hself;
    cbn [prepared Logic.implement Logic.media_list Logic.media_count];
    rewrite Himpl; intros Hzero; [ | | reflexivity].
  - assert (media_selection MAX_MEDIA_COUNT fr = []) as ->
      by (apply length_zero_iff_nil; lia).
    reflexivity.
  - assert (text_selection MAX_MEDIA_COUNT fr
              (text_lines (split (Logic.media_tag (self fr)))
                          (Media_objects (db fr))) = []) as ->
      by (apply length_zero_iff_nil; lia).
    reflexivity.
Qed.

End Again.

(** ** The state logger *)

Lemma add_state_run (message : string) (fr : Frame) :
  let logic' :=
    Logic.set_state
      (Logic.state (self fr) +:+ today (db fr) (clock (db fr))
       +:+ " " +:+ message +:+ newline) (self fr) in
  add_state message fr
  = (Return (),
     mkFrame logic'
       (set_Logic_objects
          (<[Logic.pk (self fr) := logic']> (Logic_objects (db fr)))
          (set_clock (S (clock (db fr))) (db fr)))).
Proof. open_frame fr. by run. Qed.

(** X11. Successive [add_state] calls append one line per message to the
    log, in call order, each stamped with its own reading of the clock and
    ended by a line feed; they change no other attribute of the instance
    and nothing of the database but the clock and the row of the instance,
    which is the instance itself after the last call. *)
Theorem add_states_log (messages : list string) (fr : Frame) :
  ∃ fr',
    add_states messages fr = (Return (), fr')
    ∧ Logic.state (self fr')
      = Logic.state (self fr)
        +:+ log_lines (today (db fr)) (clock (db fr)) messages
    ∧ Logic.set_state (Logic.state (self fr)) (self fr') = self fr
    ∧ clock (db fr') = (clock (db fr) + length messages)%nat
    ∧ Logic_objects (db fr')
      = match messages with
        | [] => Logic_objects (db fr)
        | _ :: _ => <[Logic.pk (self fr) := self fr']> (Logic_objects (db fr))
        end
    ∧ set_clock (clock (db fr))
        (set_Logic_objects (Logic_objects (db fr)) (db fr'))
      = db fr.
Proof.
  revert fr. induction messages as [|message rest IH]; intros fr.
  - exists fr. simpl. rewrite append_nil_r, Nat.add_0_r. open_frame fr.
    by repeat split.
  - cbn [add_states]. unfold mbind at 1, M_bind at 1.
    rewrite add_state_run. cbv zeta.
    match goal with |- context [add_states rest ?f] =>
      destruct (IH f) as (fr' & Hrun & Hstate & Hattrs & Hclock & Hrows & Hdb)
    end.
    exists fr'. rewrite Hrun. split; [done|].
    open_frame fr. destruct fr' as [l' w'].
    destruct l' as [pk' implement' media_ext' media_tag' media_order'
                    media_list' media_count' state'].
    destruct w' as [medias' logics' temps' today' clock' random' drawn'].
    simpl in *.
    injection Hattrs as -> -> -> -> -> -> ->.
    injection Hdb as -> -> -> -> ->. subst.
    rewrite !append_assoc.
    repeat split; try done; try lia.
    destruct rest; [done|]. by rewrite insert_insert_eq.
Qed.

(** ** A text file that cannot be decoded *)

Section Unreadable.
Variable MAX_MEDIA_COUNT : nat.

(** X12. When the scan of a text-mode [prep] meets a record whose file
    cannot be decoded, [prep] raises the error with nothing selected: the
    saved row has an empty [media_list], the count 0, a log of the single
    line "text_prep started." and the tag filter as it was, the instance
    differs from that row by its normalised tag filter only, and the
    [Temp] table is as it was. *)
Theorem prep_text_unreadable (fr : Frame) :
  Logic.implement (self fr) = "text" →
  Exists (unreadable (split (Logic.media_tag (self fr))))
         (Media_objects (db fr)) →
  ∃ fr' row,
    prep MAX_MEDIA_COUNT fr = (Raise ContentError, fr')
    ∧ Logic_objects (db fr') !! Logic.pk (self fr) = Some row
    ∧ Logic.media_list row = ""
    ∧ Logic.media_count row = 0
    ∧ Logic.state row
      = log_lines (today (db fr)) (clock (db fr)) ["text_prep started."]
    ∧ Logic.media_tag row = Logic.media_tag (self fr)
    ∧ self fr'
      = Logic.set_media_tag
          (join " " (split (Logic.media_tag (self fr)))) row
    ∧ Temp_objects (db fr') = Temp_objects (db fr).
Proof.
  intros Himpl Hex.
  pose proof (text_collect_unreadable _ _ [] Hex) as Hscan.
  rewrite (prep_text_raise MAX_MEDIA_COUNT fr _ Himpl Hscan).
  eexists _, _. split; [done|]. simpl.
  split; [apply lookup_insert_eq|]. by repeat split.
Qed.

End Unreadable.

(** ** Fetching after [prep] *)

Lemma find_id (catalog : list Media.t) (media : Media.t) :
  NoDup (Media.id <$> catalog) →
  media ∈ catalog →
  List.find (λ m, bool_decide (Media.id m = Media.id media)) catalog
  = Some media.
Proof.
  induction catalog as [|m rest IH]; intros Hnodup Hin; [by inversion Hin|].
  rewrite fmap_cons in Hnodup. apply NoDup_cons in Hnodup as [Hm Hnodup].
  simpl. apply elem_of_cons in Hin as [->|Hin].
  - by rewrite bool_decide_eq_true_2.
  - rewrite bool_decide_eq_false_2; [by apply IH|].
    intros Heq. destruct Hm. rewrite Heq. by apply list_elem_of_fmap_2.
Qed.

Lemma StronglySorted_sublist {A} (R : relation A) (k l : list A) :
  k `sublist_of` l → StronglySorted R l → StronglySorted R k.
Proof.
  induction 1 as [|x k l Hsub IH|x k l Hsub IH]; intros Hsorted; [done| |].
  - apply StronglySorted_inv in Hsorted as [Hl Hx].
    constructor; [by apply IH|].
    apply Forall_forall. intros y Hy.
    rewrite Forall_forall in Hx. apply Hx.
    by apply (elem_of_sublist k l).
  - apply StronglySorted_inv in Hsorted as [Hl _]. by apply IH.
Qed.

Global Instance id_le_trans : Transitive id_le.
Proof. intros a b c. unfold id_le. lia. Qed.

Global Instance id_le_total : Total id_le.
Proof. intros a b. unfold id_le. lia. Qed.

(** The accepted records, in the order of the scan, have descending
    ids. *)
Lemma ranked_sorted (fr : Frame) :
  StronglySorted (λ a b : Z, b ≤ a) (Media.id <$> ranked fr).
Proof.
  unfold ranked.
  apply (StronglySorted_fmap Media.id (flip id_le)); [by intros a b|].
  eapply StronglySorted_sublist; [apply sublist_filter|].
  apply Sorted_StronglySorted; [apply _|].
  apply Sorted_reverse, Sorted_merge_sort, _.
Qed.

Section Fetch.
Variable MAX_MEDIA_COUNT : nat.

(** X13. Right after a successful media-mode [prep] over a catalog with
    distinct ids, [get_content] raises nothing: when the count is not 0 it
    answers every sequence number, negative ones included, with the
    extension and the URL of a catalog record that satisfies the three
    conditions of the selector; without shuffle that record is the one at
    position [seq mod count] among the accepted records in descending id
    order. *)
Theorem media_prep_then_get_content (fr fr' : Frame) (seq : Z) :
  Logic.implement (self fr) = "media" →
  NoDup (Media.id <$> Media_objects (db fr)) →
  prep MAX_MEDIA_COUNT fr = (Return (), fr') →
  Logic.media_count (self fr') ≠ 0 →
  ∃ media,
    media ∈ Media_objects (db fr)
    ∧ eligible (split (Logic.media_ext (self fr)))
               (split (Logic.media_tag (self fr))) media
    ∧ get_content (Trial.mk (self fr')) seq (db fr')
      = (Return (json_dumps (Media.ext media)
                            (FieldFile.url (Media.content media))), db fr')
    ∧ (Logic.media_order (self fr) ≠ "shuffle" →
       ranked fr !! Z.to_nat (seq `mod` Logic.media_count (self fr'))
       = Some media).
Proof.
  intros Himpl Hnodup Hrun.
  destruct (prep_media_final MAX_MEDIA_COUNT fr Himpl)
    as (fr2 & Hrun2 & Hself & _ & _ & Hmedia & _).
  rewrite Hrun in Hrun2. injection Hrun2 as <-.
  rewrite Hself. cbn [prepared Logic.media_count]. intros Hcount.
  set (sel := media_selection MAX_MEDIA_COUNT fr) in *.
  set (count := Z.of_nat (length sel)) in *.
  assert (0 < count) as Hpos by lia.
  pose proof (Z.mod_pos_bound seq count Hpos) as Hrange.
  destruct (lookup_lt_is_Some_2 sel (Z.to_nat (seq `mod` count)))
    as [i Hi]; [lia|].
  assert (i ∈ Media.id <$> ranked fr) as Hin.
  { apply (subseteq_take MAX_MEDIA_COUNT).
    rewrite <-media_selection_Permutation.
    apply list_elem_of_lookup. by eexists. }
  apply list_elem_of_fmap in Hin as (media & -> & Hranked).
  pose proof Hranked as [Hcat Hel]%elem_of_ranked.
  exists media. split; [done|]. split; [done|]. split.
  - unfold get_content, media_get_content.
    cbn [Trial.logic prepared Logic.implement Logic.media_list].
    rewrite Himpl, split_join_str, length_fmap. fold sel count.
    change (bool_decide ("media" = "media")) with true. cbv iota.
    rewrite bool_decide_eq_false_2 by lia.
    rewrite getitem_nonneg, list_lookup_fmap, Hi by lia.
    cbv [mbind M_bind or_raise mret M_ret gets Media_objects_get truth
         fmap option_fmap option_map].
    by rewrite int_str, Hmedia, find_id.
  - intros Hseq. subst sel.
    rewrite media_selection_sequential in Hi by done.
    apply lookup_take_Some in Hi as [Hi _].
    apply list_lookup_fmap_Some in Hi as (m & Hid & Hm).
    rewrite Hm. f_equal.
    apply (NoDup_fmap_elem Media.id (Media_objects (db fr))); try done.
    apply list_elem_of_lookup_2 in Hm. by apply elem_of_ranked in Hm as [].
Qed.

(** X14. Without shuffle a media-mode [prep] stores the ids newest first:
    in descending order; and the cap drops the oldest: every accepted
    record that is left out has an id no greater than each stored id. *)
Theorem media_prep_newest_first (fr fr' : Frame) :
  Logic.implement (self fr) = "media" →
  Logic.media_order (self fr) ≠ "shuffle" →
  prep MAX_MEDIA_COUNT fr = (Return (), fr') →
  ∃ ids,
    split (Logic.media_list (self fr')) = str <$> ids
    ∧ StronglySorted (λ a b : Z, b ≤ a) ids
    ∧ ∀ media i,
        media ∈ Media_objects (db fr) →
        eligible (split (Logic.media_ext (self fr)))
                 (split (Logic.media_tag (self fr))) media →
        Media.id media ∉ ids → i ∈ ids → Media.id media ≤ i.
Proof.
  intros Himpl Hseq Hrun.
  destruct (prep_media_final MAX_MEDIA_COUNT fr Himpl)
    as (fr2 & Hrun2 & Hself & _).
  rewrite Hrun in Hrun2. injection Hrun2 as <-.
  exists (media_selection MAX_MEDIA_COUNT fr).
  rewrite Hself. cbn [prepared Logic.media_list].
  split; [apply split_join_str|].
  rewrite media_selection_sequential by done.
  pose proof (ranked_sorted fr) as Hsorted.
  rewrite <-(take_drop MAX_MEDIA_COUNT (Media.id <$> ranked fr)) in Hsorted.
  split; [by apply StronglySorted_app_1_l in Hsorted|].
  intros media i Hcat Hel Hout Hi.
  apply (StronglySorted_app_1_elem_of _ _ _ i (Media.id media)) in Hsorted;
    [done..|].
  assert (Media.id media ∈ Media.id <$> ranked fr) as Hin.
  { apply list_elem_of_fmap_2. by apply elem_of_ranked. }
  rewrite <-(take_drop MAX_MEDIA_COUNT (Media.id <$> ranked fr)) in Hin.
  by apply elem_of_app in Hin as [Hin|Hin].
Qed.

End Fetch.

(** ** The index list of the text selector *)

Section TextIndices.
Variable MAX_MEDIA_COUNT : nat.

Lemma text_selection_elem (fr : Frame) (text_list : list string) (i : Z) :
  i ∈ text_selection MAX_MEDIA_COUNT fr text_list →
  ∃ n, i = Z.of_nat n ∧ (n < length text_list)%nat.
Proof.
  unfold text_selection. intros Hi%subseteq_take.
  assert (i ∈ Z.of_nat <$> seq 0 (length text_list)) as Hin.
  { revert Hi. case_bool_decide; [|done]. by rewrite shuffle_Permutation. }
  apply list_elem_of_fmap in Hin as (n & -> & Hn).
  apply elem_of_seq in Hn. exists n. split; [done|lia].
Qed.

Lemma text_selection_NoDup (fr : Frame) (text_list : list string) :
  NoDup (text_selection MAX_MEDIA_COUNT fr text_list).
Proof.
  unfold text_selection.
  assert (NoDup (Z.of_nat <$> seq 0 (length text_list))) as Hnodup.
  { apply NoDup_fmap_2; [apply _ | apply NoDup_seq]. }
  eapply sublist_NoDup; [|apply sublist_take].
  case_bool_decide; [|done]. by rewrite shuffle_Permutation.
Qed.

(** X15. In text mode the stored list holds pairwise distinct indices into
    the list of lines gathered by the scan, [min(lines, MAX_MEDIA_COUNT)]
    of them; without shuffle they are 0, 1, 2, ... in this order. *)
Theorem text_prep_indices (fr fr' : Frame) :
  let lines := text_lines (split (Logic.media_tag (self fr)))
                          (Media_objects (db fr)) in
  Logic.implement (self fr) = "text" →
  prep MAX_MEDIA_COUNT fr = (Return (), fr') →
  ∃ indices,
    split (Logic.media_list (self fr')) = str <$> indices
    ∧ NoDup indices
    ∧ (∀ i, i ∈ indices → 0 ≤ i < Z.of_nat (length lines))
    ∧ length indices = (length lines `min` MAX_MEDIA_COUNT)%nat
    ∧ (Logic.media_order (self fr) ≠ "shuffle" →
       indices
       = Z.of_nat <$> seq 0 (length lines `min` MAX_MEDIA_COUNT)%nat).
Proof.
  intros lines Himpl Hrun.
  apply prep_success_cases in Hrun
    as [[Hm _]|[(_ & Hall & Hp)|[Hb _]]]; [congruence| |congruence].
  cbv zeta in Hp. destruct Hp as (Hself & _). fold lines in Hself.
  exists (text_selection MAX_MEDIA_COUNT fr lines).
  rewrite Hself. cbn [prepared Logic.media_list].
  split; [apply split_join_str|].
  split; [apply text_selection_NoDup|].
  split; [|split; [apply text_selection_length
                  |apply text_selection_sequential]].
  intros i (n & -> & Hn)%text_selection_elem. lia.
Qed.

(** X16. When every line gathered by a successful text-mode [prep] is one
    word (not empty, no whitespace), [get_content] right after it raises
    nothing: with a count other than 0 it answers every sequence number
    with one of the gathered lines, and without shuffle with the line at
    position [seq mod count]. *)
Theorem text_prep_then_get_content (fr fr' : Frame) (seq : Z) :
  let lines := text_lines (split (Logic.media_tag (self fr)))
                          (Media_objects (db fr)) in
  Logic.implement (self fr) = "text" →
  prep MAX_MEDIA_COUNT fr = (Return (), fr') →
  Forall (λ line, is_token line = true) lines →
  Logic.media_count (self fr') ≠ 0 →
  ∃ line,
    line ∈ lines
    ∧ get_content (Trial.mk (self fr')) seq (db fr')
      = (Return (json_dumps "txt" line), db fr')
    ∧ (Logic.media_order (self fr) ≠ "shuffle" →
       lines !! Z.to_nat (seq `mod` Logic.media_count (self fr'))
       = Some line).
Proof.
  intros lines Himpl Hrun Htokens.
  apply prep_success_cases in Hrun
    as [[Hm _]|[(_ & Hall & Hp)|[Hb _]]]; [congruence| |congruence].
  cbv zeta in Hp. destruct Hp as (Hself & _ & _ & _ & Htemp & _).
  fold lines in Hself, Htemp.
  rewrite Hself. cbn [prepared Logic.media_count]. intros Hcount.
  set (sel := text_selection MAX_MEDIA_COUNT fr lines) in *.
  set (count := Z.of_nat (length sel)) in *.
  assert (0 < count) as Hpos by lia.
  pose proof (Z.mod_pos_bound seq count Hpos) as Hrange.
  destruct (lookup_lt_is_Some_2 sel (Z.to_nat (seq `mod` count)))
    as [i Hi]; [lia|].
  assert (i ∈ sel) as Hin by (apply list_elem_of_lookup; by eexists).
  apply text_selection_elem in Hin as (n & -> & Hn).
  destruct (lookup_lt_is_Some_2 lines n Hn) as [line Hline].
  exists line. split; [by apply list_elem_of_lookup_2 in Hline|]. split.
  - unfold get_content, text_get_content.
    cbn [Trial.logic prepared Logic.implement Logic.media_list Logic.pk].
    rewrite Himpl, split_join_str, length_fmap. fold sel count.
    change (bool_decide ("text" = "media")) with false.
    change (bool_decide ("text" = "text")) with true. cbv iota.
    rewrite bool_decide_eq_false_2 by lia.
    rewrite getitem_nonneg, list_lookup_fmap, Hi by lia.
    cbv [mbind M_bind or_raise mret M_ret gets Temp_objects_get
         fmap option_fmap option_map Temp.content].
    rewrite Htemp, lookup_insert_eq, int_str, split_join by done.
    by rewrite getitem_nonneg, Nat2Z.id, Hline by lia.
  - intros Hseq. subst sel.
    rewrite text_selection_sequential in Hi by done.
    apply list_lookup_fmap_Some in Hi as (n' & Hn' & Hi).
    apply lookup_seq in Hi as [-> _].
    apply Nat2Z.inj in Hn'. by subst n.
Qed.

(** X17. A text-mode [prep] whose scan meets no file that cannot be decoded
    succeeds: the lines it gathers are those of the catalog records with
    the extension "txt" whose tags intersect the tag filter, whatever the
    extension filter; all of them go to the [Temp] entry of the [Logic],
    joined by single spaces, even when [MAX_MEDIA_COUNT] caps the count. *)
Theorem text_prep_gathers (fr : Frame) :
  let tag_list := split (Logic.media_tag (self fr)) in
  let lines := text_lines tag_list (Media_objects (db fr)) in
  Logic.implement (self fr) = "text" →
  Forall (λ m, ¬ unreadable tag_list m) (Media_objects (db fr)) →
  ∃ fr',
    prep MAX_MEDIA_COUNT fr = (Return (), fr')
    ∧ Temp_objects (db fr') !! TEXT_LOGIC_NAME (Logic.pk (self fr'))
      = Some (join " " lines)
    ∧ Logic.media_count (self fr')
      = Z.of_nat (length lines `min` MAX_MEDIA_COUNT)%nat
    ∧ ∀ line,
        line ∈ lines ↔
        ∃ media text,
          media ∈ Media_objects (db fr)
          ∧ Media.ext media = "txt"
          ∧ tags_intersect tag_list media
          ∧ FieldFile.text (Media.content media) = Some text
          ∧ line ∈ splitlines text.
Proof.
  intros tag_list lines Himpl Hall.
  destruct (prep_text_final MAX_MEDIA_COUNT fr lines Himpl)
    as (fr' & Hrun & Hself & _ & _ & _ & Htemp & _).
  { by rewrite text_collect_readable. }
  exists fr'. split; [done|]. rewrite Htemp, Hself.
  cbn [prepared Logic.pk Logic.media_count].
  split; [apply lookup_insert_eq|].
  split; [by rewrite text_selection_length|].
  intros line. unfold lines, text_lines.
  rewrite list_elem_of_join. split.
  - intros (chunk & Hline & (media & -> & Hm)%list_elem_of_fmap).
    apply list_elem_of_filter in Hm as [Hacc Hm].
    rewrite Forall_forall in Hall. specialize (Hall media Hm).
    destruct (FieldFile.text (Media.content media)) as [text|] eqn:Htext;
      [|by destruct Hall].
    exists media, text. apply Is_true_true in Hacc. unfold text_accepts in Hacc.
    apply andb_true_iff in Hacc as [Hext Htag].
    apply bool_decide_eq_true in Hext. apply tag_in_spec in Htag.
    by repeat split.
  - intros (media & text & Hm & Hext & Htag & Htext & Hline).
    exists (splitlines text). split; [done|].
    apply list_elem_of_fmap. exists media. rewrite Htext. split; [done|].
    apply list_elem_of_filter. split; [|done].
    apply Is_true_true. unfold text_accepts.
    rewrite andb_true_iff, bool_decide_eq_true, tag_in_spec. done.
Qed.

End TextIndices.

(** ** The further properties on concrete databases *)

Lemma prep_state_log_witness :
  let fr := Sample.gallery_frame "shuffle" in
  let fr' := snd (prep 3 fr) in
  prep 3 fr = (Return (), fr')
  ∧ Logic.state (self fr')
    = log_lines (today (db fr)) 10
        ["media_prep started."; "media_prep finished."]
  ∧ clock (db fr') = 12%nat
  ∧ saved fr'.
Proof.
  intros fr fr'.
  assert (prep 3 fr = (Return (), fr')) as Hrun by (by vm_compute).
  split; [done|]. apply (prep_state_log 3 fr fr' Hrun).
Defined.

Lemma prep_count_bound_witness :
  let fr := Sample.words_frame "shuffle" in
  let fr' := snd (prep 2 fr) in
  prep 2 fr = (Return (), fr')
  ∧ 0 ≤ Logic.media_count (self fr') ≤ 2
  ∧ (length (split (Logic.media_list (self fr'))) ≤ 2)%nat.
Proof.
  intros fr fr'.
  assert (prep 2 fr = (Return (), fr')) as Hrun by (by vm_compute).
  split; [done|]. apply (prep_count_bound 2 fr fr' Hrun).
Defined.

Lemma prep_normalises_filters_witness :
  let fr := Sample.gallery_frame "sequential" in
  let fr' := snd (prep 3 fr) in
  prep 3 fr = (Return (), fr')
  ∧ Logic.media_ext (self fr') = "jpg png"
  ∧ split (Logic.media_ext (self fr')) = split " jpg  png ".
Proof.
  intros fr fr'.
  assert (prep 3 fr = (Return (), fr')) as Hrun by (by vm_compute).
  split; [done|].
  destruct (prep_normalises_filters 3 fr fr' Hrun) as (Hext & _ & Hsplit & _).
  split; [exact Hext | exact Hsplit].
Defined.

Lemma prep_leaves_untouched_witness :
  let fr := Sample.words_frame "sequential" in
  let fr' := snd (prep 2 fr) in
  (4 : Z) ≠ Logic.pk (self fr)
  ∧ "other" ≠ TEXT_LOGIC_NAME (Logic.pk (self fr))
  ∧ Logic.implement (self Sample.blank_frame) ≠ "text"
  ∧ Media_objects (db fr') = Media_objects (db fr)
  ∧ Logic_objects (db fr') !! (4 : Z) = Logic_objects (db fr) !! (4 : Z)
  ∧ Temp_objects (db fr') !! "other" = Temp_objects (db fr) !! "other"
  ∧ Temp_objects (db (snd (prep 2 Sample.blank_frame)))
    = Temp_objects (db Sample.blank_frame).
Proof.
  intros fr fr'.
  assert ((4 : Z) ≠ Logic.pk (self fr)) as Hk by done.
  assert ("other" ≠ TEXT_LOGIC_NAME (Logic.pk (self fr))) as Hname by done.
  assert (Logic.implement (self Sample.blank_frame) ≠ "text") as Hb by done.
  destruct (prep_leaves_untouched 2 fr)
    as (Hmedia & _ & _ & _ & Hrows & Htemps & _).
  destruct (prep_leaves_untouched 2 Sample.blank_frame)
    as (_ & _ & _ & _ & _ & _ & Htable).
  split; [done|]. split; [done|]. split; [done|].
  split; [exact Hmedia|]. split; [exact (Hrows 4 Hk)|].
  split; [exact (Htemps "other" Hname) | exact (Htable Hb)].
Defined.

Lemma prep_twice_witness :
  let fr := Sample.gallery_frame "shuffle" in
  let fr1 := snd (prep 3 fr) in
  prep 3 fr = (Return (), fr1)
  ∧ Logic.implement (self fr) = "media"
  ∧ Logic.media_order (self Sample.blank_frame) ≠ "shuffle"
  ∧ (∃ fr2,
       prep 3 fr1 = (Return (), fr2)
       ∧ Logic.media_count (self fr2) = Logic.media_count (self fr1)
       ∧ split (Logic.media_list (self fr2))
         ≡ₚ split (Logic.media_list (self fr1)))
  ∧ (∃ fr2,
       prep 3 (snd (prep 3 Sample.blank_frame)) = (Return (), fr2)
       ∧ Logic.media_list (self fr2)
         = Logic.media_list (self (snd (prep 3 Sample.blank_frame)))).
Proof.
  intros fr fr1.
  assert (prep 3 fr = (Return (), fr1)) as Hrun by (by vm_compute).
  assert (prep 3 Sample.blank_frame
          = (Return (), snd (prep 3 Sample.blank_frame))) as Hblank
    by (by vm_compute).
  assert (Logic.media_order (self Sample.blank_frame) ≠ "shuffle") as Hseq
    by done.
  split; [done|]. split; [done|]. split; [done|]. split.
  - destruct (prep_twice 3 fr fr1 Hrun)
      as (fr2 & Hrun2 & Hcount & _ & _ & _ & _ & Hperm).
    exists fr2. split; [done|]. split; [done|]. by apply Hperm.
  - destruct (prep_twice 3 Sample.blank_frame _ Hblank)
      as (fr2 & Hrun2 & _ & _ & _ & _ & Hlist & _).
    exists fr2. split; [done|]. by apply Hlist.
Defined.

Lemma prep_nothing_selected_witness :
  let fr := mkFrame (Sample.logic "media" "gif" "*" "shuffle")
                    (Sample.world Sample.gallery) in
  let fr' := snd (prep 3 fr) in
  prep 3 fr = (Return (), fr')
  ∧ Logic.media_count (self fr') = 0
  ∧ get_content (Trial.mk (self fr')) (-4) (Fixture.purge (db fr'))
    = (Return no_data, Fixture.purge (db fr')).
Proof.
  intros fr fr'.
  assert (prep 3 fr = (Return (), fr')) as Hrun by (by vm_compute).
  assert (Logic.media_count (self fr') = 0) as Hzero by (by vm_compute).
  split; [done|]. split; [done|].
  apply (prep_nothing_selected 3 fr fr' (-4) (Fixture.purge (db fr'))
           Hrun Hzero).
Defined.

Lemma prep_text_unreadable_witness :
  Logic.implement (self Sample.broken_frame) = "text"
  ∧ Exists (unreadable ["w"]) Sample.broken
  ∧ ∃ fr' row,
      prep 2 Sample.broken_frame = (Raise ContentError, fr')
      ∧ Logic_objects (db fr') !! (3 : Z) = Some row
      ∧ Logic.media_list row = ""
      ∧ Logic.media_count row = 0
      ∧ Temp_objects (db fr') = Temp_objects (db Sample.broken_frame).
Proof.
  assert (Exists (unreadable ["w"]) Sample.broken) as Hex.
  { apply Exists_cons_tl, Exists_cons_hd. by split. }
  split; [done|]. split; [done|].
  destruct (prep_text_unreadable 2 Sample.broken_frame eq_refl Hex)
    as (fr' & row & Hrun & Hrow & Hlist & Hcount & _ & _ & _ & Htemp).
  by exists fr', row.
Defined.

Lemma media_prep_then_get_content_witness :
  let fr := Sample.gallery_frame "shuffle" in
  let fr' := snd (prep 3 fr) in
  NoDup (Media.id <$> Media_objects (db fr))
  ∧ prep 3 fr = (Return (), fr')
  ∧ Logic.media_count (self fr') ≠ 0
  ∧ ∃ media,
      media ∈ Sample.gallery
      ∧ get_content (Trial.mk (self fr')) (-1) (db fr')
        = (Return (json_dumps (Media.ext media)
                              (FieldFile.url (Media.content media))),
           db fr').
Proof.
  intros fr fr'.
  assert (NoDup (Media.id <$> Media_objects (db fr))) as Hnodup
    by (by apply (bool_decide_unpack _); vm_compute).
  assert (prep 3 fr = (Return (), fr')) as Hrun by (by vm_compute).
  assert (Logic.media_count (self fr') ≠ 0) as Hcount by (by vm_compute).
  split; [done|]. split; [done|]. split; [done|].
  destruct (media_prep_then_get_content 3 fr fr' (-1) eq_refl Hnodup Hrun
              Hcount) as (media & Hin & _ & Hget & _).
  by exists media.
Defined.

Lemma media_prep_newest_first_witness :
  let fr := Sample.gallery_frame "sequential" in
  let fr' := snd (prep 3 fr) in
  Logic.media_order (self fr) ≠ "shuffle"
  ∧ prep 3 fr = (Return (), fr')
  ∧ ∃ ids,
      split (Logic.media_list (self fr')) = str <$> ids
      ∧ StronglySorted (λ a b : Z, b ≤ a) ids.
Proof.
  intros fr fr'.
  assert (Logic.media_order (self fr) ≠ "shuffle") as Hseq by done.
  assert (prep 3 fr = (Return (), fr')) as Hrun by (by vm_compute).
  split; [done|]. split; [done|].
  destruct (media_prep_newest_first 3 fr fr' eq_refl Hseq Hrun)
    as (ids & Htokens & Hsorted & _).
  by exists ids.
Defined.

Lemma text_prep_indices_witness :
  let fr := Sample.words_frame "shuffle" in
  let fr' := snd (prep 2 fr) in
  prep 2 fr = (Return (), fr')
  ∧ ∃ indices,
      split (Logic.media_list (self fr')) = str <$> indices
      ∧ NoDup indices
      ∧ length indices = 2%nat.
Proof.
  intros fr fr'.
  assert (prep 2 fr = (Return (), fr')) as Hrun by (by vm_compute).
  split; [done|].
  destruct (text_prep_indices 2 fr fr' eq_refl Hrun)
    as (indices & Htokens & Hnodup & _ & Hlen & _).
  by exists indices.
Defined.

Lemma text_prep_then_get_content_witness :
  let fr := Sample.words_frame "shuffle" in
  let fr' := snd (prep 2 fr) in
  prep 2 fr = (Return (), fr')
  ∧ Forall (λ line, is_token line = true) (text_lines ["w"] Sample.words)
  ∧ Logic.media_count (self fr') ≠ 0
  ∧ ∃ line,
      line ∈ text_lines ["w"] Sample.words
      ∧ get_content (Trial.mk (self fr')) (-1) (db fr')
        = (Return (json_dumps "txt" line), db fr').
Proof.
  intros fr fr'.
  assert (prep 2 fr = (Return (), fr')) as Hrun by (by vm_compute).
  assert (Forall (λ line, is_token line = true)
                 (text_lines ["w"] Sample.words)) as Htokens
    by (by apply (bool_decide_unpack _); vm_compute).
  assert (Logic.media_count (self fr') ≠ 0) as Hcount by (by vm_compute).
  split; [done|]. split; [done|]. split; [done|].
  destruct (text_prep_then_get_content 2 fr fr' (-1) eq_refl Hrun Htokens
              Hcount) as (line & Hin & Hget & _).
  by exists line.
Defined.

Lemma text_prep_gathers_witness :
  let fr := Sample.words_frame "sequential" in
  Forall (λ m, ¬ unreadable ["w"] m) Sample.words
  ∧ ∃ fr',
      prep 2 fr = (Return (), fr')
      ∧ Temp_objects (db fr') !! TEXT_LOGIC_NAME (Logic.pk (self fr'))
        = Some (join " " (text_lines ["w"] Sample.words))
      ∧ Logic.media_count (self fr') = 2.
Proof.
  intros fr.
  assert (Forall (λ m, ¬ unreadable ["w"] m) Sample.words) as Hall
    by (by apply (bool_decide_unpack _); vm_compute).
  split; [done|].
  destruct (text_prep_gathers 2 fr eq_refl Hall)
    as (fr' & Hrun & Htemp & Hcount & _).
  by exists fr'.
Defined.
